(** * reader-view: the browser automation script [boat_and_rod/browser.py]

    A shallow embedding of the command-line tool that drives a dedicated
    Chrome instance over the Chrome DevTools Protocol (CDP), and the proofs
    of the properties its specification states.

    The script is I/O glue, so the embedding is a state-and-exception monad
    over an explicit [World]: the files the script reads and writes, what
    the HTTP debug endpoint and the WebSocket peers will answer, and the
    history of the actions performed so far.  Python values coming out of
    [json.loads] are dynamically typed; they are embedded as [pyval] and
    every [.get], truthiness test and [==] is written out with the
    exception Python raises on a value of the wrong type. *)

From stdpp Require Import base option list strings gmap pretty.
From Stdlib Require Import ZArith Ascii.

Set Warnings "-register-all".
Local Open Scope string_scope.
Local Open Scope Z_scope.
Local Open Scope list_scope.

(** ** Python values *)

(** A Python [float]: not-a-number, an infinity, or the number [m * 2^e]. *)
Inductive pyfloat : Type :=
| FNaN
| FInf (negative : bool)
| FNum (m e : Z).

(** What [json.loads] produces; [PNone] is both JSON [null] and Python
    [None].  A [dict] keeps insertion order, as Python's does. *)
Inductive pyval : Type :=
| PNone
| PBool (b : bool)
| PInt (z : Z)
| PFloat (f : pyfloat)
| PStr (s : string)
| PList (l : list pyval)
| PDict (kvs : list (string * pyval)).

(** The exceptions the script can meet; every one is a subclass of
    [Exception].  [SystemExit] is not: it is the [Exit] outcome below. *)
Inductive exn : Type :=
| URLError
| JSONDecodeError
| AttributeError
| TypeError
| KeyError
| IndexError
| ValueError
| OverflowError
| FileNotFoundError
| OSError
| WebSocketException
| WebSocketTimeoutException
| UnicodeDecodeError.

(** A pure computation that may raise. *)
Inductive res (A : Type) : Type :=
| Ok (a : A)
| Err (e : exn).
Arguments Ok {A} a.
Arguments Err {A} e.

Definition float_is_zero (f : pyfloat) : bool :=
  match f with
  | FNum m _ => m =? 0
  | _ => false
  end.

(** [f == z] for a float [f] and an int [z]. *)
Definition float_eq_int (f : pyfloat) (z : Z) : bool :=
  match f with
  | FNum m e => if 0 <=? e then m * 2 ^ e =? z else m =? z * 2 ^ (- e)
  | _ => false
  end.

(** [bool(v)]. *)
Definition truthy (v : pyval) : bool :=
  match v with
  | PNone => false
  | PBool b => b
  | PInt z => negb (z =? 0)
  | PFloat f => negb (float_is_zero f)
  | PStr s => negb (String.eqb s "")
  | PList l => match l with [] => false | _ => true end
  | PDict kvs => match kvs with [] => false | _ => true end
  end.

(** [v == s] for a string literal [s]. *)
Definition py_eq_str (v : pyval) (s : string) : bool :=
  match v with
  | PStr t => String.eqb t s
  | _ => false
  end.

(** [v == z] for an int literal [z]; [True == 1] and [1.0 == 1] hold in
    Python. *)
Definition py_eq_int (v : pyval) (z : Z) : bool :=
  match v with
  | PInt n => n =? z
  | PBool b => (if b then 1 else 0) =? z
  | PFloat f => float_eq_int f z
  | _ => false
  end.

(** [d[key]] on the association list of a dict. *)
Fixpoint assoc (key : string) (kvs : list (string * pyval)) : option pyval :=
  match kvs with
  | [] => None
  | (k, v) :: rest => if String.eqb k key then Some v else assoc key rest
  end.

(** [v.get(key, default)]; only a dict has [.get]. *)
Definition py_get (v : pyval) (key : string) (dflt : pyval) : res pyval :=
  match v with
  | PDict kvs => Ok (default dflt (assoc key kvs))
  | _ => Err AttributeError
  end.

(** [v[key]] with a string key: [KeyError] on a dict without the key,
    [TypeError] on anything that is not a dict. *)
Definition py_index (v : pyval) (key : string) : res pyval :=
  match v with
  | PDict kvs => match assoc key kvs with Some x => Ok x | None => Err KeyError end
  | _ => Err TypeError
  end.

(** A [str] is held as its UTF-8 encoding.  A byte [10xxxxxx] continues
    the character begun before it. *)
Definition is_continuation (c : ascii) : bool :=
  let n := nat_of_ascii c in ((128 <=? n)%nat && (n <? 192)%nat)%bool.

(** The characters of [s], each with all its bytes. *)
Fixpoint code_points (s : string) : list string :=
  match s with
  | EmptyString => []
  | String c rest =>
      let continued :=
        match rest with
        | String d _ => is_continuation d
        | EmptyString => false
        end in
      match code_points rest with
      | first :: others =>
          if continued then String c first :: others
          else String c EmptyString :: first :: others
      | [] => [String c EmptyString]
      end
  end.

(** The one-character strings of [s], which is what iterating a [str]
    yields. *)
Definition chars (s : string) : list pyval := map PStr (code_points s).

(** [for t in v]: a list yields its items, a dict its keys, a string its
    characters; nothing else is iterable. *)
Definition py_iter (v : pyval) : res (list pyval) :=
  match v with
  | PList l => Ok l
  | PDict kvs => Ok (map (fun kv => PStr (fst kv)) kvs)
  | PStr s => Ok (chars s)
  | _ => Err TypeError
  end.

(** [len(v)]; a string is measured in characters. *)
Definition py_len (v : pyval) : res nat :=
  match v with
  | PList l => Ok (length l)
  | PDict kvs => Ok (length kvs)
  | PStr s => Ok (length (code_points s))
  | _ => Err TypeError
  end.

(** [a or b] on values. *)
Definition py_or (a b : pyval) : pyval := if truthy a then a else b.

(** ** Strings *)

(** [s.startswith((p1, p2, ...))]. *)
Definition startswith_any (s : string) (prefixes : list string) : bool :=
  existsb (fun p => String.prefix p s) prefixes.

(** [needle in hay]. *)
Definition str_contains (needle hay : string) : bool :=
  match String.index 0 needle hay with
  | Some _ => true
  | None => false
  end.

(** [s.split(sep)] for a one-character separator. *)
Fixpoint str_split (sep : ascii) (s : string) : list string :=
  match s with
  | EmptyString => [EmptyString]
  | String c rest =>
      if Ascii.eqb c sep then EmptyString :: str_split sep rest
      else match str_split sep rest with
           | [] => [String c EmptyString]
           | hd :: tl => String c hd :: tl
           end
  end.

(** [parts[i]]. *)
Definition list_index {A : Type} (l : list A) (i : nat) : res A :=
  match l !! i with
  | Some x => Ok x
  | None => Err IndexError
  end.

(** [s.lower()] on the ASCII letters.  The only use is the test
    ["error" not in title.lower()], and no character outside ASCII
    lower-cases to one of the letters e, r, o. *)
Definition lower_ascii (c : ascii) : ascii :=
  let n := nat_of_ascii c in
  if ((65 <=? n)%nat && (n <=? 90)%nat)%bool then ascii_of_nat (n + 32) else c.

Fixpoint str_lower (s : string) : string :=
  match s with
  | EmptyString => EmptyString
  | String c rest => String (lower_ascii c) (str_lower rest)
  end.

(** The string of the bytes [codes]. *)
Definition bytes (codes : list nat) : string :=
  String.string_of_list_ascii (map ascii_of_nat codes).

(** The characters [str.isspace] accepts, which are those [str.strip]
    removes: U+0009 to U+000D, U+001C to U+0020, U+0085, U+00A0, U+1680,
    U+2000 to U+200A, U+2028, U+2029, U+202F, U+205F and U+3000. *)
Definition unicode_spaces : list string :=
  map (fun n => bytes [n]) [9; 10; 11; 12; 13; 28; 29; 30; 31; 32]%nat
  ++ [ bytes [194; 133]%nat; bytes [194; 160]%nat; bytes [225; 154; 128]%nat ]
  ++ map (fun n => bytes [226; 128; n]%nat)
       [128; 129; 130; 131; 132; 133; 134; 135; 136; 137; 138]%nat
  ++ [ bytes [226; 128; 168]%nat; bytes [226; 128; 169]%nat; bytes [226; 128; 175]%nat;
       bytes [226; 129; 159]%nat; bytes [227; 128; 128]%nat ].

Definition is_space (c : string) : bool :=
  existsb (String.eqb c) unicode_spaces.

Fixpoint drop_spaces (cs : list string) : list string :=
  match cs with
  | [] => []
  | c :: rest => if is_space c then drop_spaces rest else cs
  end.

Definition lstrip (s : string) : string :=
  String.concat "" (drop_spaces (code_points s)).

Definition rstrip (s : string) : string :=
  String.concat "" (rev (drop_spaces (rev (code_points s)))).

(** [s.strip()]. *)
Definition str_strip (s : string) : string := rstrip (lstrip s).

(** [s.replace(c, by)] for a one-character pattern. *)
Fixpoint str_replace (c : ascii) (by_ : string) (s : string) : string :=
  match s with
  | EmptyString => EmptyString
  | String d rest =>
      if Ascii.eqb d c then by_ +:+ str_replace c by_ rest
      else String d (str_replace c by_ rest)
  end.

(** [sep.join(parts)]. *)
Definition str_join (sep : string) (parts : list string) : string :=
  String.concat sep parts.

(** [str(z)] for an int. *)
Definition str_of_Z (z : Z) : string := pretty z.

(** [str(v)]: what an f-string or [print] shows.  Containers and floats
    are left to the interpreter's [repr]. *)
Definition py_str (repr : pyval -> string) (v : pyval) : string :=
  match v with
  | PNone => "None"
  | PBool true => "True"
  | PBool false => "False"
  | PInt z => str_of_Z z
  | PStr s => s
  | _ => repr v
  end.

(** ** The host: environment and library functions

    What the script takes from the machine it runs on and from Python's
    library, none of which is code of the repository. *)
Class Host : Type := {
  (** [Path.home()] *)
  HOME : string;
  (** [Path(__file__).parent.resolve().parent] *)
  PROJECT_DIR : string;
  (** [int(os.environ.get("BROWSER_PORT", 9333))] *)
  DEBUG_PORT : Z;
  (** [os.environ.get("CHROME_BIN", "")] *)
  CHROME_BIN : string;
  (** [json.loads] of a string or of the bytes of an answer; on malformed
      text the error is [JSONDecodeError], on bytes that are not text
      [UnicodeDecodeError] *)
  json_loads : string -> res pyval;
  (** [json.dumps] *)
  json_dumps : pyval -> string;
  (** [json.dumps(_, indent=2)] *)
  json_dumps_indent : pyval -> string;
  (** [repr] of a container or a float *)
  py_repr : pyval -> string;
  (** [base64.b64encode(_.encode("utf-8")).decode("ascii")] *)
  b64encode : string -> string;
  (** [base64.b64decode]; [None] stands for [binascii.Error] *)
  b64decode : string -> option string;
  (** [str(Path(_).resolve())] *)
  path_resolve : string -> string;
  (** [str(Path(_).parent)] *)
  path_parent : string -> string;
  (** [float(_)] of a string; [None] stands for [ValueError] *)
  float_of_str : string -> option pyfloat;
  (** whether [time.sleep] finds a time within a few microseconds of the
      largest it can hold too large; it differs between versions of the
      interpreter *)
  sleep_overflows : pyfloat -> bool;
  (** [str(e)] of a caught exception *)
  str_of_exn : exn -> string;
}.

(** [a / b] on paths. *)
Definition path_join (a b : string) : string := a +:+ "/" +:+ b.

(** ** The world *)

(** What one HTTP GET meets. *)
Inductive http_reply : Type :=
| HttpBody (body : string)
| HttpFail (e : exn).

(** What one [ws.recv()] meets. *)
Inductive ws_frame : Type :=
| Frame (data : string)
| FrameFail (e : exn).

(** The other end of one WebSocket connection: whether it accepts the
    connection, whether [send] goes through, and the frames it will
    deliver.  The connection is opened with [timeout=10], so once the
    frames are used up [recv] raises the timeout exception. *)
Record ws_peer : Type := {
  (** the exception [create_connection] raises, if it fails *)
  peer_refuses : option exn;
  (** the exception [send] raises, if it fails *)
  peer_send_fails : option exn;
  peer_frames : list ws_frame;
}.

(** A sleep of so many seconds. *)
Definition seconds_0_5 : pyfloat := FNum 1 (-1).
Definition seconds_1_5 : pyfloat := FNum 3 (-1).
Definition seconds_2_5 : pyfloat := FNum 5 (-1).

(** The actions of the script that the outside can observe, attempts
    included. *)
Inductive event : Type :=
| EPrint (line : string)
| EPrintErr (line : string)
| EHttpGet (url : string)
| EWsConnect (url : string)
| EWsSend (conn : nat) (msg : string)
| EWsRecv (conn : nat) (data : string)
| EWsClose (conn : nat)
| ESleep (secs : pyfloat)
| EMkdir (path : string)
| EWrite (path : string) (content : string)
| EUnlink (path : string)
| EPopen (args : list string)
| EKill (pid : Z)
| ERun (args : list string).

Record World : Type := {
  (** the regular files and their contents *)
  files : gmap string string;
  (** what the n-th HTTP GET, to the given URL, will meet *)
  http_oracle : nat -> string -> http_reply;
  http_count : nat;
  (** who the n-th WebSocket connection, to the given URL, will reach *)
  ws_oracle : nat -> string -> ws_peer;
  ws_count : nat;
  (** the open connections, with the frames each has still to deliver *)
  ws_open : gmap nat ws_peer;
  (** what [subprocess.Popen] will give: a pid or an exception *)
  popen_result : res Z;
  (** the exception [subprocess.run] will raise, if any *)
  run_result : option exn;
  (** the exit status of the child when [subprocess.run] returns *)
  run_status : Z;
  (** the actions so far, oldest first *)
  trace : list event;
}.

Definition with_files (f : gmap string string) (w : World) : World :=
  {| files := f; http_oracle := http_oracle w; http_count := http_count w;
     ws_oracle := ws_oracle w; ws_count := ws_count w; ws_open := ws_open w;
     popen_result := popen_result w; run_result := run_result w;
     run_status := run_status w; trace := trace w |}.

Definition with_http_count (n : nat) (w : World) : World :=
  {| files := files w; http_oracle := http_oracle w; http_count := n;
     ws_oracle := ws_oracle w; ws_count := ws_count w; ws_open := ws_open w;
     popen_result := popen_result w; run_result := run_result w;
     run_status := run_status w; trace := trace w |}.

Definition with_ws (n : nat) (o : gmap nat ws_peer) (w : World) : World :=
  {| files := files w; http_oracle := http_oracle w; http_count := http_count w;
     ws_oracle := ws_oracle w; ws_count := n; ws_open := o;
     popen_result := popen_result w; run_result := run_result w;
     run_status := run_status w; trace := trace w |}.

Definition with_trace (t : list event) (w : World) : World :=
  {| files := files w; http_oracle := http_oracle w; http_count := http_count w;
     ws_oracle := ws_oracle w; ws_count := ws_count w; ws_open := ws_open w;
     popen_result := popen_result w; run_result := run_result w;
     run_status := run_status w; trace := t |}.

(** ** The monad of the script *)

(** How a piece of the script ends: it returns, raises, or calls
    [sys.exit]. *)
Inductive outcome (A : Type) : Type :=
| Ret (a : A)
| Raise (e : exn)
| Exit (code : Z).
Arguments Ret {A} a.
Arguments Raise {A} e.
Arguments Exit {A} code.

Definition M (A : Type) : Type := World -> outcome A * World.

#[global] Instance M_ret : MRet M := fun A a w => (Ret a, w).

#[global] Instance M_bind : MBind M := fun A B k m w =>
  match m w with
  | (Ret a, w') => k a w'
  | (Raise e, w') => (Raise e, w')
  | (Exit c, w') => (Exit c, w')
  end.

Definition raise {A : Type} (e : exn) : M A := fun w => (Raise e, w).

(** [sys.exit(code)] *)
Definition sys_exit {A : Type} (code : Z) : M A := fun w => (Exit code, w).

Definition lift {A : Type} (r : res A) : M A :=
  match r with
  | Ok a => mret a
  | Err e => raise e
  end.

(** [try: body / except ...: handler]; the handler re-raises what its
    [except] clause does not name.  [sys.exit] passes through. *)
Definition try_except {A : Type} (body : M A) (handler : exn -> M A) : M A :=
  fun w =>
    match body w with
    | (Raise e, w') => handler e w'
    | other => other
    end.

(** [try: body / finally: cleanup] *)
Definition try_finally {A : Type} (body : M A) (cleanup : M unit) : M A :=
  fun w =>
    match body w with
    | (r, w') =>
        match cleanup w' with
        | (Ret _, w'') => (r, w'')
        | (Raise e, w'') => (Raise e, w'')
        | (Exit c, w'') => (Exit c, w'')
        end
    end.

Definition emit (e : event) : M unit :=
  fun w => (Ret tt, with_trace (trace w ++ [e]) w).

(** [print(line)] *)
Definition print (line : string) : M unit := emit (EPrint line).

(** [print(line, file=sys.stderr)] *)
Definition print_err (line : string) : M unit := emit (EPrintErr line).

(** *** Primitive actions *)

(** [|m * 2^e| * 10^9 <= n]: a time in seconds, taken in nanoseconds,
    against a bound. *)
Definition within_ns (m e n : Z) : bool :=
  if 0 <=? e then Z.abs m * 2 ^ e * 10 ^ 9 <=? n
  else Z.abs m * 10 ^ 9 <=? n * 2 ^ (- e).

(** [time.sleep(secs)].  The time is first turned into a signed 64-bit
    count of nanoseconds: not-a-number is a [ValueError], an infinity or
    a time of either sign that does not fit an [OverflowError]; only then
    is a negative time refused with [ValueError]. *)
Definition sleep `{Host} (secs : pyfloat) : M unit :=
  match secs with
  | FNaN => raise ValueError
  | FInf _ => raise OverflowError
  | FNum m e =>
      if (negb (within_ns m e (2 ^ 63 + 2 ^ 12))
          || (negb (within_ns m e (2 ^ 63 - 2 ^ 12)) && sleep_overflows secs))%bool
      then raise OverflowError
      else if m <? 0 then raise ValueError else emit (ESleep secs)
  end.

(** [urlopen(url, timeout=5).read()] *)
Definition urlopen (url : string) : M string :=
  fun w =>
    let w' := with_http_count (S (http_count w))
                (with_trace (trace w ++ [EHttpGet url]) w) in
    match http_oracle w (http_count w) url with
    | HttpBody body => (Ret body, w')
    | HttpFail e => (Raise e, w')
    end.

(** [websocket.create_connection(url, timeout=10)]; the library rejects a
    URL that is not a string before it touches the network. *)
Definition create_connection (url : pyval) : M nat :=
  fun w =>
    match url with
    | PStr u =>
        let n := ws_count w in
        let peer := ws_oracle w n u in
        let w' := with_trace (trace w ++ [EWsConnect u]) w in
        match peer_refuses peer with
        | None => (Ret n, with_ws (S n) (<[n := peer]> (ws_open w)) w')
        | Some e => (Raise e, with_ws (S n) (ws_open w) w')
        end
    | _ => (Raise TypeError, w)
    end.

(** [ws.send(msg)] *)
Definition ws_send (ws : nat) (msg : string) : M unit :=
  fun w =>
    let w' := with_trace (trace w ++ [EWsSend ws msg]) w in
    match ws_open w !! ws with
    | Some peer =>
        match peer_send_fails peer with
        | None => (Ret tt, w')
        | Some e => (Raise e, w')
        end
    | None => (Raise WebSocketException, w')
    end.

Definition with_frames (rest : list ws_frame) (peer : ws_peer) : ws_peer :=
  {| peer_refuses := peer_refuses peer;
     peer_send_fails := peer_send_fails peer;
     peer_frames := rest |}.

(** [ws.recv()] *)
Definition ws_recv (ws : nat) : M string :=
  fun w =>
    match ws_open w !! ws with
    | Some peer =>
        match peer_frames peer with
        | [] => (Raise WebSocketTimeoutException, w)
        | Frame data :: rest =>
            (Ret data,
             with_ws (ws_count w) (<[ws := with_frames rest peer]> (ws_open w))
               (with_trace (trace w ++ [EWsRecv ws data]) w))
        | FrameFail e :: rest =>
            (Raise e,
             with_ws (ws_count w) (<[ws := with_frames rest peer]> (ws_open w)) w)
        end
    | None => (Raise WebSocketException, w)
    end.

(** [ws.close()] *)
Definition ws_close (ws : nat) : M unit :=
  fun w =>
    (Ret tt,
     with_ws (ws_count w) (delete ws (ws_open w))
       (with_trace (trace w ++ [EWsClose ws]) w)).

(** [path.exists()], [os.path.isfile(path)] *)
Definition path_exists (path : string) : M bool :=
  fun w => (Ret (bool_decide (is_Some (files w !! path))), w).

(** [path.read_text()] *)
Definition read_text (path : string) : M string :=
  fun w =>
    match files w !! path with
    | Some content => (Ret content, w)
    | None => (Raise FileNotFoundError, w)
    end.

(** [path.write_text(content)], [path.write_bytes(content)] *)
Definition write_text (path content : string) : M unit :=
  fun w =>
    (Ret tt,
     with_files (<[path := content]> (files w))
       (with_trace (trace w ++ [EWrite path content]) w)).

(** [path.unlink(missing_ok=True)] *)
Definition unlink (path : string) : M unit :=
  fun w =>
    (Ret tt,
     with_files (delete path (files w))
       (with_trace (trace w ++ [EUnlink path]) w)).

(** [path.mkdir(parents=True, exist_ok=True)] *)
Definition mkdir (path : string) : M unit := emit (EMkdir path).

(** [subprocess.Popen(args, ...)], giving the pid of the child *)
Definition popen (args : list string) : M Z :=
  fun w =>
    let w' := with_trace (trace w ++ [EPopen args]) w in
    match popen_result w with
    | Ok pid => (Ret pid, w')
    | Err e => (Raise e, w')
    end.

(** [proc.kill()] *)
Definition proc_kill (pid : Z) : M unit := emit (EKill pid).

(** [subprocess.run(args, capture_output=True).returncode]; without
    [check=True] a child that fails is no exception. *)
Definition subprocess_run (args : list string) : M Z :=
  fun w =>
    let w' := with_trace (trace w ++ [ERun args]) w in
    match run_result w with
    | None => (Ret (run_status w), w')
    | Some e => (Raise e, w')
    end.

(** ** The script *)

Section Browser.
Context `{Host}.

(** *** Paths and constants *)

Definition SETTINGS_DIR : string := path_join PROJECT_DIR "my-settings".
Definition STATE_DIR : string := path_join HOME ".reader-browser".
Definition STATE_FILE : string := path_join STATE_DIR "state.json".
Definition CHROME_DATA : string := path_join STATE_DIR "chrome-data".
Definition EXT_ID_FILE : string := path_join STATE_DIR ".extension-id".

Definition CWS_URL : string :=
  "https://chromewebstore.google.com/detail/reader-view/ecabifbgmdmgdllomnfinbmaellmclnh".
Definition CWS_EXT_ID : string := "ecabifbgmdmgdllomnfinbmaellmclnh".

(** Chrome built-in extension IDs, skipped during discovery. *)
Definition BUILTIN_EXT_IDS : gset string :=
  {[ "ghbmnnjooekpmoecnnnilnnbdlolhkhi";
     "nmmhkkegccagdldgiimedpiccmgmieda";
     "nkeimhogjdpnpccoofpliimaahmaaome";
     "fignfifoniblkonapihmkfakmlgkbkcf";
     "ahfgeienlihckogmohjhadlkjgocpleb";
     "mhjfbmdgcfjbbpaeojofohoefgiehjai" ]}.

Definition CHROME_CANDIDATES : list string :=
  [ CHROME_BIN;
    "C:\Program Files\Google\Chrome\Application\chrome.exe";
    "C:\Program Files (x86)\Google\Chrome\Application\chrome.exe" ].

Fixpoint find_chrome_in (candidates : list string) : M string :=
  match candidates with
  | [] => raise FileNotFoundError
  | path :: rest =>
      isfile ← path_exists path;
      if (negb (String.eqb path "") && isfile)%bool then mret path
      else find_chrome_in rest
  end.

Definition find_chrome : M string := find_chrome_in CHROME_CANDIDATES.

(** *** CDP helpers *)

Definition loads (text : string) : M pyval := lift (json_loads text).

(** GET a CDP HTTP endpoint, return parsed JSON. *)
Definition cdp_http (endpoint : string) : M pyval :=
  try_except
    (body ← urlopen ("http://localhost:" +:+ str_of_Z DEBUG_PORT +:+ endpoint);
     loads body)
    (fun e =>
       match e with
       | URLError | JSONDecodeError => mret PNone
       | _ => raise e
       end).

(** The [while True] loop of [cdp_send].  Each round takes one frame off
    the connection, and [recv] raises once none is left, so the loop is
    run for one round more than there are frames. *)
Fixpoint cdp_recv_loop (rounds : nat) (ws : nat) : M pyval :=
  match rounds with
  | O => raise WebSocketTimeoutException
  | S rounds' =>
      data ← ws_recv ws;
      resp ← loads data;
      id ← lift (py_get resp "id" PNone);
      if py_eq_int id 1 then mret resp
      else cdp_recv_loop rounds' ws
  end.

Definition pending_frames (ws : nat) : M nat :=
  fun w =>
    (Ret (match ws_open w !! ws with
          | Some peer => length (peer_frames peer)
          | None => O
          end), w).

(** Send a single CDP command over WebSocket, return the response. *)
Definition cdp_send (ws_url : pyval) (method : string) (params : pyval)
  : M pyval :=
  ws ← create_connection ws_url;
  try_finally
    (let msg := [("id", PInt 1); ("method", PStr method)] in
     let msg := if truthy params then (msg ++ [("params", params)])%list else msg in
     ws_send ws (json_dumps (PDict msg));;
     n ← pending_frames ws;
     cdp_recv_loop (S n) ws)
    (ws_close ws).

(** Get the browser-level WebSocket URL. *)
Definition get_browser_ws : M pyval :=
  info ← cdp_http "/json/version";
  if truthy info then lift (py_index info "webSocketDebuggerUrl")
  else mret PNone.

Fixpoint first_page (targets : list pyval) : res pyval :=
  match targets with
  | [] => Ok PNone
  | t :: rest =>
      match py_get t "type" PNone with
      | Ok ty =>
          if py_eq_str ty "page" then py_get t "webSocketDebuggerUrl" PNone
          else first_page rest
      | Err e => Err e
      end
  end.

(** Get WebSocket URL for the first 'page' type target. *)
Definition get_page_ws : M pyval :=
  found ← cdp_http "/json";
  targets ← lift (py_iter (py_or found (PList [])));
  lift (first_page targets).

(** List all targets from CDP. *)
Definition get_all_targets : M pyval :=
  found ← cdp_http "/json";
  mret (py_or found (PList [])).

Definition save_state (pid : Z) : M unit :=
  mkdir STATE_DIR;;
  write_text STATE_FILE
    (json_dumps (PDict [("pid", PInt pid); ("port", PInt DEBUG_PORT)])).

Definition load_state : M pyval :=
  present ← path_exists STATE_FILE;
  if (present : bool) then text ← read_text STATE_FILE; loads text
  else mret PNone.

(** Exit with error if Chrome isn't running. *)
Definition require_running : M unit :=
  ws ← get_browser_ws;
  if negb (truthy ws) then
    print "Chrome is not running. Use: python browser.py start";;
    sys_exit 1
  else mret tt.

(** Get active page WebSocket URL or exit. *)
Definition require_page : M pyval :=
  ws ← get_page_ws;
  if negb (truthy ws) then
    print "No active page found.";;
    sys_exit 1
  else mret ws.

(** Read cached extension ID. *)
Definition get_ext_id : M pyval :=
  present ← path_exists EXT_ID_FILE;
  if (present : bool) then
    text ← read_text EXT_ID_FILE;
    let ext_id := str_strip text in
    if (negb (String.eqb ext_id "")
        && bool_decide (ext_id ∉ BUILTIN_EXT_IDS))%bool
    then mret (PStr ext_id)
    else mret PNone
  else mret PNone.

(** The [for t in ...] loop of [discover_ext_id]; [Some id] when the
    function returns [id] from inside the loop. *)
Fixpoint scan_targets (targets : list pyval) : M (option string) :=
  match targets with
  | [] => mret None
  | t :: rest =>
      url ← lift (py_get t "url" (PStr ""));
      match url with
      | PStr url =>
          if String.prefix "chrome-extension://" url then
            ext_id ← lift (list_index (str_split "/" url) 2);
            if bool_decide (ext_id ∉ BUILTIN_EXT_IDS) then
              mkdir STATE_DIR;;
              write_text EXT_ID_FILE ext_id;;
              mret (Some ext_id)
            else scan_targets rest
          else scan_targets rest
      | _ => raise AttributeError
      end
  end.

(** Discover Reader View extension ID from browser targets or verify CWS
    ID. *)
Definition discover_ext_id : M pyval :=
  browser_ws ← get_browser_ws;
  if negb (truthy browser_ws) then mret PNone else
  (* First try finding extension targets *)
  found ← try_except
    (resp ← cdp_send browser_ws "Target.getTargets" PNone;
     result ← lift (py_get resp "result" (PDict []));
     infos ← lift (py_get result "targetInfos" (PList []));
     targets ← lift (py_iter infos);
     scan_targets targets)
    (fun _ => mret None);
  match found with
  | Some ext_id => mret (PStr ext_id)
  | None =>
  (* Fallback: verify the known CWS extension ID by navigating to it *)
  found ← try_except
    (page_ws ← get_page_ws;
     if truthy page_ws then
       let test_url :=
         "chrome-extension://" +:+ CWS_EXT_ID +:+ "/data/reader/index.html" in
       resp ← cdp_send page_ws "Page.navigate" (PDict [("url", PStr test_url)]);
       result ← lift (py_get resp "result" (PDict []));
       err ← lift (py_get result "errorText" PNone);
       if negb (truthy err) then
         sleep seconds_0_5;;
         title_resp ← cdp_send page_ws "Runtime.evaluate"
           (PDict [("expression", PStr "document.title || ''");
                   ("returnByValue", PBool true)]);
         result ← lift (py_get title_resp "result" (PDict []));
         result ← lift (py_get result "result" (PDict []));
         title ← lift (py_get result "value" (PStr ""));
         good ← (if truthy title then
                   match title with
                   | PStr t => mret (negb (str_contains "error" (str_lower t)))
                   | _ => raise AttributeError
                   end
                 else mret false);
         if (good : bool) then
           (* Navigate back to about:blank *)
           cdp_send page_ws "Page.navigate" (PDict [("url", PStr "about:blank")]);;
           mkdir STATE_DIR;;
           write_text EXT_ID_FILE CWS_EXT_ID;;
           mret (Some CWS_EXT_ID)
         else mret None
       else mret None
     else mret None)
    (fun _ => mret None);
  match found with
  | Some ext_id => mret (PStr ext_id)
  | None => mret PNone
  end
  end.

(** [a() or b()]: [b] is called only when [a] gives a falsy value. *)
Definition or_else (a b : M pyval) : M pyval :=
  x ← a;
  if truthy x then mret x else b.

(** *** Commands *)

(** The [for _ in range(30)] loop of [cmd_start]; [true] when the
    function returns from inside the loop. *)
Fixpoint start_poll (rounds : nat) (pid : Z) : M bool :=
  match rounds with
  | O => mret false
  | S rounds' =>
      ws ← get_browser_ws;
      if truthy ws then
        save_state pid;;
        print ("Chrome started (PID " +:+ str_of_Z pid +:+ ")");;
        sleep seconds_1_5;;
        ext_id ← discover_ext_id;
        (if truthy ext_id then
           print ("Extension ID: " +:+ py_str py_repr ext_id)
         else
           print "Reader View not installed. Run: python browser.py setup");;
        mret true
      else
        sleep seconds_0_5;;
        start_poll rounds' pid
  end.

Definition cmd_start : M unit :=
  ws ← get_browser_ws;
  if truthy ws then
    print ("Chrome already running on port " +:+ str_of_Z DEBUG_PORT +:+ ".");;
    ext_id ← or_else get_ext_id discover_ext_id;
    if truthy ext_id then
      print ("Extension ID: " +:+ py_str py_repr ext_id)
    else
      print "Reader View not installed. Run: python browser.py setup"
  else
    chrome ← find_chrome;
    mkdir CHROME_DATA;;
    let args :=
      [ chrome;
        "--user-data-dir=" +:+ CHROME_DATA;
        "--remote-debugging-port=" +:+ str_of_Z DEBUG_PORT;
        "--remote-allow-origins=*";
        "--no-first-run";
        "--no-default-browser-check";
        "--disable-default-apps";
        "about:blank" ] in
    pid ← popen args;
    print "Starting Chrome...";;
    started ← start_poll 30 pid;
    if (started : bool) then mret tt
    else
      print "ERROR: Chrome did not start in time.";;
      proc_kill pid;;
      sys_exit 1.

(** Open CWS Reader View page for one-time installation. *)
Definition cmd_setup : M unit :=
  require_running;;
  page_ws ← require_page;
  cdp_send page_ws "Page.navigate" (PDict [("url", PStr CWS_URL)]);;
  print "Opened Chrome Web Store: Reader View";;
  print "Click 'Add to Chrome' to install, then run: python browser.py status".

Definition cmd_stop : M unit :=
  state ← load_state;
  if negb (truthy state) then print "No saved state. Nothing to stop."
  else
    pid ← lift (py_get state "pid" PNone);
    (if truthy pid then
       try_except
         (subprocess_run ["taskkill"; "/pid"; py_str py_repr pid; "/f"; "/t"];;
          print ("Chrome stopped (PID " +:+ py_str py_repr pid +:+ ")"))
         (fun e => print ("Could not stop Chrome: " +:+ str_of_exn e))
     else mret tt);;
    unlink STATE_FILE.

(** [[t for t in targets if t.get("type") == "page"]] *)
Fixpoint filter_pages (targets : list pyval) : res (list pyval) :=
  match targets with
  | [] => Ok []
  | t :: rest =>
      match py_get t "type" PNone with
      | Ok ty =>
          match filter_pages rest with
          | Ok pages => Ok (if py_eq_str ty "page" then t :: pages else pages)
          | Err e => Err e
          end
      | Err e => Err e
      end
  end.

(** [for i, p in enumerate(pages)] of [cmd_status], from index [i] on. *)
Fixpoint print_pages (i : nat) (pages : list pyval) : M unit :=
  match pages with
  | [] => mret tt
  | p :: rest =>
      let marker := if Nat.eqb i 0 then "*" else " " in
      title ← lift (py_get p "title" (PStr "(no title)"));
      url ← lift (py_get p "url" (PStr ""));
      print ("    " +:+ marker +:+ " " +:+ py_str py_repr title);;
      print ("      " +:+ py_str py_repr url);;
      print_pages (S i) rest
  end.

Definition cmd_status : M unit :=
  state ← load_state;
  ws ← get_browser_ws;
  if truthy ws then
    print ("Chrome is running (port " +:+ str_of_Z DEBUG_PORT +:+ ")");;
    (if truthy state then
       pid ← lift (py_get state "pid" PNone);
       print ("  PID: " +:+ py_str py_repr pid)
     else mret tt);;
    ext_id ← or_else get_ext_id discover_ext_id;
    (if truthy ext_id then
       print ("  Extension ID: " +:+ py_str py_repr ext_id);;
       print ("  Options URL: chrome-extension://" +:+ py_str py_repr ext_id
              +:+ "/data/options/index.html")
     else
       print "  Reader View: NOT INSTALLED";;
       print "  Run: python browser.py setup");;
    targets ← get_all_targets;
    targets ← lift (py_iter targets);
    pages ← lift (filter_pages targets);
    print ("  Open pages: " +:+ str_of_Z (Z.of_nat (length pages)));;
    print_pages 0 pages
  else
    print "Chrome is not running.";;
    ext_id ← get_ext_id;
    if truthy ext_id then
      print ("  Cached Extension ID: " +:+ py_str py_repr ext_id)
    else mret tt.

(** The URL [cmd_open] navigates to. *)
Definition normalize_url (url : string) : string :=
  if negb (startswith_any url ["http"; "chrome"; "about"; "file"])
  then "https://" +:+ url
  else url.

Definition cmd_open (url : string) : M unit :=
  require_running;;
  let url := normalize_url url in
  page_ws ← require_page;
  resp ← cdp_send page_ws "Page.navigate" (PDict [("url", PStr url)]);
  result ← lift (py_get resp "result" (PDict []));
  err ← lift (py_get result "errorText" PNone);
  if truthy err then print ("Navigation error: " +:+ py_str py_repr err)
  else print ("Navigated to " +:+ url).

(** [key in v] for a string [key]: a key of a dict, an item of a list, a
    substring of a string. *)
Definition py_contains (key : string) (v : pyval) : res bool :=
  match v with
  | PDict kvs => Ok (bool_decide (is_Some (assoc key kvs)))
  | PList l => Ok (existsb (fun x => py_eq_str x key) l)
  | PStr s => Ok (str_contains key s)
  | _ => Err TypeError
  end.

Definition cmd_js (expression : string) : M unit :=
  require_running;;
  page_ws ← require_page;
  resp ← cdp_send page_ws "Runtime.evaluate"
    (PDict [("expression", PStr expression);
            ("returnByValue", PBool true);
            ("awaitPromise", PBool true)]);
  outer ← lift (py_get resp "result" (PDict []));
  result ← lift (py_get outer "result" (PDict []));
  outer ← lift (py_get resp "result" (PDict []));
  exception ← lift (py_get outer "exceptionDetails" PNone);
  if truthy exception then
    inner ← lift (py_get exception "exception" (PDict []));
    desc ← lift (py_get inner "description" (PStr "Unknown error"));
    print_err ("JS Error: " +:+ py_str py_repr desc);;
    sys_exit 1
  else
    ty ← lift (py_get result "type" PNone);
    if py_eq_str ty "undefined" then mret tt
    else
      has_value ← lift (py_contains "value" result);
      if (has_value : bool) then
        val ← lift (py_index result "value");
        match val with
        | PStr s => print s
        | _ => print (json_dumps_indent val)
        end
      else
        description ← lift (py_get result "description" PNone);
        if truthy description then
          description ← lift (py_index result "description");
          print (py_str py_repr description)
        else mret tt.

Definition cmd_screenshot (filename : string) : M unit :=
  require_running;;
  page_ws ← require_page;
  resp ← cdp_send page_ws "Page.captureScreenshot"
    (PDict [("format", PStr "png")]);
  result ← lift (py_get resp "result" (PDict []));
  data ← lift (py_get result "data" (PStr ""));
  if truthy data then
    let path := path_resolve filename in
    mkdir (path_parent path);;
    bytes ← match data with
            | PStr d =>
                match b64decode d with
                | Some bytes => mret bytes
                | None => raise ValueError
                end
            | _ => raise TypeError
            end;
    write_text path bytes;;
    print ("Screenshot saved: " +:+ path)
  else
    print "Failed to capture screenshot.";;
    sys_exit 1.

Definition cmd_click (selector : string) : M unit :=
  require_running;;
  page_ws ← require_page;
  let escaped := str_replace "'" "\'" selector in
  let js :=
    "(() => {"
    +:+ "  const el = document.querySelector('" +:+ escaped +:+ "');"
    +:+ "  if (!el) return 'Element not found: " +:+ escaped +:+ "';"
    +:+ "  el.click();"
    +:+ "  return 'clicked';"
    +:+ "})()" in
  resp ← cdp_send page_ws "Runtime.evaluate"
    (PDict [("expression", PStr js); ("returnByValue", PBool true)]);
  result ← lift (py_get resp "result" (PDict []));
  result ← lift (py_get result "result" (PDict []));
  val ← lift (py_get result "value" (PStr ""));
  if py_eq_str val "clicked" then print ("Clicked: " +:+ selector)
  else
    print (py_str py_repr val);;
    sys_exit 1.

(** [seconds] is [None] when the default [2] is used. *)
Definition cmd_wait (seconds : option string) : M unit :=
  require_running;;
  secs ← match seconds with
         | None => mret (FNum 2 0)
         | Some s =>
             match float_of_str s with
             | Some f => mret f
             | None => raise ValueError
             end
         end;
  sleep secs;;
  print ("Waited " +:+ default "2" seconds +:+ "s").

(** The [for f in [...]: if not f.exists(): ...] loop of [cmd_push]. *)
Fixpoint check_exist (paths : list string) : M unit :=
  match paths with
  | [] => mret tt
  | f :: rest =>
      present ← path_exists f;
      if negb present then print ("Missing: " +:+ f);; sys_exit 1
      else check_exist rest
  end.

(** The JavaScript that stores the decoded payload in
    [chrome.storage.local]. *)
Definition storage_set_js (name b64 : string) : string :=
  "new Promise((resolve, reject) => {"
  +:+ "  const " +:+ name +:+ " = JSON.parse(atob('" +:+ b64 +:+ "'));"
  +:+ "  chrome.storage.local.set(" +:+ name +:+ ", () => {"
  +:+ "    if (chrome.runtime.lastError) reject(chrome.runtime.lastError.message);"
  +:+ "    else resolve('OK');"
  +:+ "  });"
  +:+ "})".

Definition cmd_push : M unit :=
  require_running;;
  ext_id ← get_ext_id;
  ext_id ← (if negb (truthy ext_id) then discover_ext_id else mret ext_id);
  if negb (truthy ext_id) then
    print "Extension ID unknown. Run 'setup' to install Reader View first.";;
    sys_exit 1
  else
    (* Read settings files from my-settings/ *)
    let css_file := path_join SETTINGS_DIR "reader-view.css" in
    let sidebar_file := path_join SETTINGS_DIR "frame-sidebar.css" in
    let action_file := path_join SETTINGS_DIR "user-action.json" in
    check_exist [css_file; sidebar_file; action_file];;
    reader_css ← read_text css_file;
    sidebar_css ← read_text sidebar_file;
    user_action ← read_text action_file;
    (* Validate and parse JSON *)
    actions_parsed ← try_except
      (loads user_action)
      (fun e =>
         match e with
         | JSONDecodeError =>
             print ("Invalid JSON in user-action.json: " +:+ str_of_exn e);;
             sys_exit 1
         | _ => raise e
         end);
    (* Build storage payload *)
    let payload :=
      PDict [("user-css", PStr reader_css);
             ("top-css", PStr sidebar_css);
             ("user-action", actions_parsed)] in
    (* Navigate to options page *)
    let opts_url :=
      "chrome-extension://" +:+ py_str py_repr ext_id
      +:+ "/data/options/index.html" in
    print "Opening options page...";;
    page_ws ← require_page;
    cdp_send page_ws "Page.navigate" (PDict [("url", PStr opts_url)]);;
    sleep seconds_2_5;;
    (* Base64-encode to avoid escaping issues *)
    let b64_payload := b64encode (json_dumps payload) in
    let js := storage_set_js "data" b64_payload in
    resp ← cdp_send page_ws "Runtime.evaluate"
      (PDict [("expression", PStr js);
              ("returnByValue", PBool true);
              ("awaitPromise", PBool true)]);
    outer ← lift (py_get resp "result" (PDict []));
    exception ← lift (py_get outer "exceptionDetails" PNone);
    if truthy exception then
      inner ← lift (py_get exception "exception" (PDict []));
      desc ← lift (py_get inner "description" (PStr "Unknown error"));
      print_err ("Error: " +:+ py_str py_repr desc);;
      sys_exit 1
    else
      outer ← lift (py_get resp "result" (PDict []));
      result ← lift (py_get outer "result" (PDict []));
      result_val ← lift (py_get result "value" (PStr ""));
      if py_eq_str result_val "OK" then
        print "  user-css <- reader-view.css";;
        print "  top-css <- frame-sidebar.css";;
        print "  user-action <- user-action.json";;
        print "Settings pushed and saved!"
      else print ("Unexpected result: " +:+ py_str py_repr result_val).

(** Import all preferences from reader-view-preferences.json via
    chrome.storage.local. *)
Definition cmd_import : M unit :=
  require_running;;
  ext_id ← or_else get_ext_id discover_ext_id;
  if negb (truthy ext_id) then
    print "Extension ID unknown. Run 'setup' to install Reader View first.";;
    sys_exit 1
  else
    let prefs_file := path_join SETTINGS_DIR "reader-view-preferences.json" in
    present ← path_exists prefs_file;
    if negb present then
      print ("Missing: " +:+ prefs_file);;
      sys_exit 1
    else
      text ← read_text prefs_file;
      prefs ← loads text;
      count ← lift (py_len prefs);
      print ("Loaded " +:+ str_of_Z (Z.of_nat count)
             +:+ " preferences from reader-view-preferences.json");;
      (* Navigate to extension options page *)
      let opts_url :=
        "chrome-extension://" +:+ py_str py_repr ext_id
        +:+ "/data/options/index.html" in
      print "Opening options page...";;
      page_ws ← require_page;
      cdp_send page_ws "Page.navigate" (PDict [("url", PStr opts_url)]);;
      sleep seconds_2_5;;
      (* Base64-encode the full preferences JSON *)
      let b64_prefs := b64encode (json_dumps prefs) in
      (* Push via chrome.storage.local.set() *)
      let js := storage_set_js "prefs" b64_prefs in
      resp ← cdp_send page_ws "Runtime.evaluate"
        (PDict [("expression", PStr js);
                ("returnByValue", PBool true);
                ("awaitPromise", PBool true)]);
      outer ← lift (py_get resp "result" (PDict []));
      exception ← lift (py_get outer "exceptionDetails" PNone);
      if truthy exception then
        inner ← lift (py_get exception "exception" (PDict []));
        desc ← lift (py_get inner "description" (PStr "Unknown error"));
        print_err ("Error: " +:+ py_str py_repr desc);;
        sys_exit 1
      else
        outer ← lift (py_get resp "result" (PDict []));
        result ← lift (py_get outer "result" (PDict []));
        result_val ← lift (py_get result "value" (PStr ""));
        if py_eq_str result_val "OK" then
          print "All preferences imported successfully!"
        else print ("Unexpected result: " +:+ py_str py_repr result_val).

(** *** Main *)

(** The module docstring, printed as the usage text. *)
Definition __doc__ : string :=
"
browser.py - Browser automation for Reader View development.

Launches a dedicated Chrome instance and provides commands for navigation,
JS execution, screenshots, and pushing settings via Chrome DevTools Protocol.

Usage:
    python browser.py start             Launch automation Chrome
    python browser.py setup             Install Reader View extension (one-time)
    python browser.py stop              Stop Chrome
    python browser.py status            Show browser & extension info
    python browser.py open <url>        Navigate to URL
    python browser.py js <expression>   Execute JavaScript, print result
    python browser.py screenshot [file] Capture screenshot (default: screenshot.png)
    python browser.py click <selector>  Click element by CSS selector
    python browser.py push              Push CSS/JSON from my-settings/ to extension
    python browser.py import            Import all preferences from reader-view-preferences.json
    python browser.py wait [seconds]    Wait for page load (default: 2s)

Notes:
    Managed Chrome blocks --load-extension, so the extension must be installed
    from the Chrome Web Store once via 'setup'. It persists in the profile.
".

(** A Python function called with positional string arguments; a call
    with the wrong number of them is a [TypeError]. *)
Definition callable : Type := list string -> M unit.

Definition no_args (f : M unit) : callable :=
  fun args => match args with [] => f | _ => raise TypeError end.

Definition one_arg (f : string -> M unit) : callable :=
  fun args => match args with [a] => f a | _ => raise TypeError end.

(** A function of one parameter with a default value. *)
Definition optional_arg (f : option string -> M unit) : callable :=
  fun args =>
    match args with
    | [] => f None
    | [a] => f (Some a)
    | _ => raise TypeError
    end.

Definition COMMANDS : list (string * (callable * Z * string)) :=
  [ ("start", (no_args cmd_start, 0, ""));
    ("setup", (no_args cmd_setup, 0, ""));
    ("stop", (no_args cmd_stop, 0, ""));
    ("status", (no_args cmd_status, 0, ""));
    ("open", (one_arg cmd_open, 1, "<url>"));
    ("js", (one_arg cmd_js, 1, "<expression>"));
    ("screenshot",
     (optional_arg (fun f => cmd_screenshot (default "screenshot.png" f)),
      -1, "[filename]"));
    ("click", (one_arg cmd_click, 1, "<selector>"));
    ("wait", (optional_arg cmd_wait, -1, "[seconds]"));
    ("push", (no_args cmd_push, 0, ""));
    ("import", (no_args cmd_import, 0, "")) ].

(** [COMMANDS[name]], [None] when [name not in COMMANDS]. *)
Fixpoint lookup_command (name : string)
    (table : list (string * (callable * Z * string)))
  : option (callable * Z * string) :=
  match table with
  | [] => None
  | (k, entry) :: rest =>
      if String.eqb k name then Some entry else lookup_command name rest
  end.

(** [argv] is [sys.argv]: the script name, then the arguments. *)
Definition main (argv : list string) : M unit :=
  let argv1 := default "" (argv !! 1%nat) in
  if ((length argv <? 2)%nat
      || bool_decide (argv1 ∈ ["-h"; "--help"; "help"]))%bool
  then print __doc__
  else
    let cmd_name := argv1 in
    match lookup_command cmd_name COMMANDS with
    | None =>
        print ("Unknown command: " +:+ cmd_name);;
        print __doc__;;
        sys_exit 1
    | Some (func, nargs, usage) =>
        if nargs =? 0 then func []
        else if nargs =? 1 then
          if (length argv <? 3)%nat then
            print ("Usage: python browser.py " +:+ cmd_name +:+ " " +:+ usage);;
            sys_exit 1
          else func [str_join " " (drop 2 argv)]
        else if nargs =? -1 then
          if (2 <? length argv)%nat then func [default "" (argv !! 2%nat)]
          else func []
        else mret tt
    end.

(** The exit status of the process for an outcome of [main]: 0 when it
    returns, the argument of [sys.exit], and 1 after the traceback of an
    exception nobody caught. *)
Definition exit_status (r : outcome unit) : Z :=
  match r with
  | Ret _ => 0
  | Exit code => code
  | Raise _ => 1
  end.

(** [if __name__ == "__main__": main()] *)
Definition run (argv : list string) (w : World) : Z * World :=
  let (r, w') := main argv w in (exit_status r, w').

End Browser.

(** ** A concrete host and concrete worlds

    Used to run the script on examples.  The host writes JSON with single
    quotes and reads back only the documents of a fixed table. *)
Module Demo.

Fixpoint dumps (fuel : nat) (v : pyval) : string :=
  match fuel with
  | O => "..."
  | S fuel' =>
      match v with
      | PNone => "null"
      | PBool true => "true"
      | PBool false => "false"
      | PInt z => str_of_Z z
      | PFloat _ => "<float>"
      | PStr s => "'" +:+ s +:+ "'"
      | PList l => "[" +:+ String.concat ", " (map (dumps fuel') l) +:+ "]"
      | PDict kvs =>
          "{" +:+ String.concat ", "
                    (map (fun kv => "'" +:+ fst kv +:+ "': " +:+ dumps fuel' (snd kv)) kvs)
          +:+ "}"
      end
  end.

Definition browser_url : string := "ws://localhost:9333/devtools/browser/b1".
Definition page_url : string := "ws://localhost:9333/devtools/page/p1".
Definition ext_url : string :=
  "chrome-extension://abcdefghijklmnopabcdefghijklmnop/background.js".

Definition version_doc : pyval :=
  PDict [("Browser", PStr "Chrome/120"); ("webSocketDebuggerUrl", PStr browser_url)].

Definition targets : list pyval :=
  [ PDict [("type", PStr "service_worker"); ("url", PStr ext_url)];
    PDict [("type", PStr "page"); ("title", PStr "Blank");
           ("url", PStr "about:blank");
           ("webSocketDebuggerUrl", PStr page_url)] ].

Definition targets_doc : pyval := PList targets.

Definition workers_doc : pyval :=
  PList [ PDict [("type", PStr "service_worker"); ("url", PStr ext_url)] ].

Definition event_doc : pyval :=
  PDict [("method", PStr "Target.targetCreated"); ("params", PDict [])].

Definition other_reply_doc : pyval :=
  PDict [("id", PInt 7); ("result", PDict [])].

Definition get_targets_doc : pyval :=
  PDict [("id", PInt 1);
         ("result",
          PDict [("targetInfos",
                  PList [ PDict [("type", PStr "service_worker");
                                 ("url", PStr ext_url)] ])])].

Definition navigate_ok_doc : pyval :=
  PDict [("id", PInt 1); ("result", PDict [("frameId", PStr "F1")])].

Definition navigate_error_doc : pyval :=
  PDict [("id", PInt 1);
         ("result", PDict [("frameId", PStr "F1");
                           ("errorText", PStr "net::ERR_NAME_NOT_RESOLVED")])].

Definition js_exception : pyval :=
  PDict [("description", PStr "ReferenceError: x is not defined")].

Definition js_exception_details : pyval := PDict [("exception", js_exception)].

Definition js_error_result : pyval :=
  PDict [("result", PDict [("type", PStr "object")]);
         ("exceptionDetails", js_exception_details)].

Definition js_error_doc : pyval :=
  PDict [("id", PInt 1); ("result", js_error_result)].

Definition state_doc : pyval := PDict [("pid", PInt 4242); ("port", PInt 9333)].

Definition screenshot_doc : pyval :=
  PDict [("id", PInt 1); ("result", PDict [("data", PStr "iVBORw0KGgo=")])].

Definition torn_screenshot_doc : pyval :=
  PDict [("id", PInt 1); ("result", PDict [("data", PStr "abc")])].

(** The eight bytes every PNG file begins with. *)
Definition png_signature : string :=
  bytes [137; 80; 78; 71; 13; 10; 26; 10]%nat.

Definition number_doc : pyval := PInt 5.

Definition actions_doc : pyval :=
  PList [PDict [("title", PStr "Next page"); ("code", PStr "next()")]].

Definition storage_ok_doc : pyval :=
  PDict [("id", PInt 1);
         ("result", PDict [("result", PDict [("type", PStr "string");
                                             ("value", PStr "OK")])])].

Definition storage_odd_doc : pyval :=
  PDict [("id", PInt 1);
         ("result", PDict [("result", PDict [("type", PStr "string");
                                             ("value", PStr "pending")])])].

Definition documents : list pyval :=
  [ version_doc; targets_doc; workers_doc; event_doc; other_reply_doc; get_targets_doc;
    navigate_ok_doc; navigate_error_doc; js_error_doc; state_doc;
    screenshot_doc; torn_screenshot_doc; number_doc; actions_doc;
    storage_ok_doc; storage_odd_doc ].

Fixpoint loads_in (table : list pyval) (text : string) : res pyval :=
  match table with
  | [] => Err JSONDecodeError
  | v :: rest => if String.eqb (dumps 8 v) text then Ok v else loads_in rest text
  end.

(** Two bytes that begin no text in UTF-8, UTF-16 or UTF-32. *)
Definition not_text : string := bytes [255; 255]%nat.

Definition host : Host :=
  {| HOME := "/home/dev";
     PROJECT_DIR := "/home/dev/reader-view";
     DEBUG_PORT := 9333;
     CHROME_BIN := "/usr/bin/chrome";
     json_loads := fun text =>
       if String.prefix not_text text then Err UnicodeDecodeError
       else loads_in documents text;
     json_dumps := dumps 8;
     json_dumps_indent := dumps 8;
     py_repr := dumps 8;
     b64encode := fun s => s;
     b64decode := fun s =>
       if String.eqb s "iVBORw0KGgo=" then Some png_signature
       else if String.eqb s "aGVsbG8=" then Some "hello"
       else None;
     path_resolve := fun p => "/home/dev/" +:+ p;
     path_parent := fun _ => "/home/dev";
     float_of_str := fun s =>
       if String.eqb s "0.5" then Some (FNum 1 (-1))
       else if String.eqb s "-1" then Some (FNum (-1) 0)
       else if String.eqb s "-1e10" then Some (FNum (-10000000000) 0)
       else if String.eqb s "1e300" then Some (FNum (10 ^ 300) 0)
       else if String.eqb s "nan" then Some FNaN
       else if String.eqb s "-inf" then Some (FInf true)
       else None;
     sleep_overflows := fun _ => true;
     str_of_exn := fun _ => "error" |}.

Definition version_endpoint : string := "http://localhost:9333/json/version".
Definition targets_endpoint : string := "http://localhost:9333/json".

(** The debug endpoint of a running Chrome. *)
Definition http_up (n : nat) (url : string) : http_reply :=
  if String.eqb url version_endpoint then HttpBody (dumps 8 version_doc)
  else if String.eqb url targets_endpoint then HttpBody (dumps 8 targets_doc)
  else HttpFail URLError.

(** A running Chrome without a page. *)
Definition http_no_page (n : nat) (url : string) : http_reply :=
  if String.eqb url version_endpoint then HttpBody (dumps 8 version_doc)
  else if String.eqb url targets_endpoint then HttpBody (dumps 8 workers_doc)
  else HttpFail URLError.

(** Nobody listens. *)
Definition http_down (n : nat) (url : string) : http_reply := HttpFail URLError.

(** A peer that delivers the given documents. *)
Definition peer_of (docs : list pyval) : ws_peer :=
  {| peer_refuses := None; peer_send_fails := None;
     peer_frames := map (fun d => Frame (dumps 8 d)) docs |}.

Definition peer_closed : ws_peer :=
  {| peer_refuses := Some WebSocketException; peer_send_fails := None;
     peer_frames := [] |}.

(** The [n]-th connection reaches the [n]-th peer of the list. *)
Definition ws_script (peers : list ws_peer) (n : nat) (url : string) : ws_peer :=
  default peer_closed (peers !! n).

Definition world (fs : gmap string string)
    (http : nat -> string -> http_reply) (peers : list ws_peer) : World :=
  {| files := fs; http_oracle := http; http_count := 0;
     ws_oracle := ws_script peers; ws_count := 0; ws_open := ∅;
     popen_result := Ok 4242; run_result := None; run_status := 0;
     trace := [] |}.


(** The same world on a machine without [taskkill]. *)
Definition without_taskkill (w : World) : World :=
  {| files := files w; http_oracle := http_oracle w;
     http_count := http_count w; ws_oracle := ws_oracle w;
     ws_count := ws_count w; ws_open := ws_open w;
     popen_result := popen_result w; run_result := Some FileNotFoundError;
     run_status := run_status w; trace := trace w |}.

End Demo.

(** * Properties *)

(** ** Running the monad *)

Section Running.
Context {A B : Type}.
Implicit Types (m : M A) (k : A -> M B) (w : World).

Lemma run_bind m k w :
  (m ≫= k) w =
  match m w with
  | (Ret a, w') => k a w'
  | (Raise e, w') => (Raise e, w')
  | (Exit c, w') => (Exit c, w')
  end.
Proof. reflexivity. Qed.

Lemma run_bind_ret m k w a w1 :
  m w = (Ret a, w1) -> (m ≫= k) w = k a w1.
Proof. intros E. rewrite run_bind, E. reflexivity. Qed.

Lemma run_bind_raise m k w e w1 :
  m w = (Raise e, w1) -> (m ≫= k) w = (Raise e, w1).
Proof. intros E. rewrite run_bind, E. reflexivity. Qed.


(** What a bind that ended did on the way. *)
Lemma run_bind_inv m k w r w' :
  (m ≫= k) w = (r, w') ->
  (exists a w1, m w = (Ret a, w1) /\ k a w1 = (r, w'))
  \/ (exists e, m w = (Raise e, w') /\ r = Raise e)
  \/ (exists c, m w = (Exit c, w') /\ r = Exit c).
Proof.
  rewrite run_bind. destruct (m w) as [[a|e|c] w1]; intros E.
  - left. eauto.
  - right. left. inversion E. eauto.
  - right. right. inversion E. eauto.
Qed.

End Running.

Lemma run_ret {A : Type} (a : A) (w : World) :
  mret (M := M) a w = (Ret a, w).
Proof. reflexivity. Qed.

Lemma run_raise {A : Type} (e : exn) (w : World) :
  raise (A := A) e w = (Raise e, w).
Proof. reflexivity. Qed.

Lemma run_exit {A : Type} (c : Z) (w : World) :
  sys_exit (A := A) c w = (Exit c, w).
Proof. reflexivity. Qed.

Lemma run_lift_Ok {A : Type} (a : A) (w : World) : lift (Ok a) w = (Ret a, w).
Proof. reflexivity. Qed.

Lemma run_lift_Err {A : Type} (e : exn) (w : World) :
  lift (A := A) (Err e) w = (Raise e, w).
Proof. reflexivity. Qed.

(** One step of the script, by rewriting. *)
Ltac run :=
  repeat progress
    (rewrite ?run_bind, ?run_ret, ?run_raise, ?run_exit,
       ?run_lift_Ok, ?run_lift_Err;
     cbv beta iota).

Lemma run_lift_ok {A : Type} (r : res A) (a : A) (w : World) :
  r = Ok a -> lift r w = (Ret a, w).
Proof. intros ->. reflexivity. Qed.

Lemma run_lift_err {A : Type} (r : res A) (e : exn) (w : World) :
  r = Err e -> lift r w = (Raise e, w).
Proof. intros ->. reflexivity. Qed.

(** ** Strings *)

Lemma append_cons (c : ascii) (a b : string) :
  String c a +:+ b = String c (a +:+ b).
Proof. reflexivity. Qed.

(** [String.prefix] says what [startswith] means. *)
Lemma prefix_spec (p s : string) :
  String.prefix p s = true <-> exists rest, s = p +:+ rest.
Proof.
  revert s. induction p as [|c p IH]; intros s.
  - split; [intros _; exists s; reflexivity | intros _; destruct s; reflexivity].
  - destruct s as [|d s]; simpl.
    + split; [discriminate | intros [rest E]; discriminate].
    + destruct (Ascii.ascii_dec c d) as [->|Hne].
      * rewrite IH. split; intros [rest E]; exists rest.
        -- rewrite E. reflexivity.
        -- rewrite append_cons in E. congruence.
      * split; [discriminate | intros [rest E]; rewrite append_cons in E; congruence].
Qed.

(** ** Worlds that differ in the history only *)

(** The world [w] after the actions [evs], none of which changes a file or
    a connection. *)
Definition logged (w : World) (evs : list event) : World :=
  with_trace (trace w ++ evs) w.

Lemma logged_logged (w : World) (e1 e2 : list event) :
  logged (logged w e1) e2 = logged w (e1 ++ e2).
Proof. unfold logged, with_trace; simpl. by rewrite app_assoc. Qed.

Lemma run_emit (e : event) (w : World) : emit e w = (Ret tt, logged w [e]).
Proof. reflexivity. Qed.

Lemma run_print (line : string) (w : World) :
  print line w = (Ret tt, logged w [EPrint line]).
Proof. reflexivity. Qed.

Lemma run_print_exit {A : Type} (line : string) (c : Z) (w : World) :
  (print line;; sys_exit (A := A) c) w = (Exit c, logged w [EPrint line]).
Proof. reflexivity. Qed.


Lemma run_bind_mkdir {B : Type} (path : string) (k : unit -> M B) (w : World) :
  (mkdir path ≫= k) w = k tt (logged w [EMkdir path]).
Proof. reflexivity. Qed.





Ltac simpl_default :=
  repeat match goal with
         | |- context [default ?d (Some ?x)] => change (default d (Some x)) with x
         end.

(** ** The command dispatcher *)

Section Dispatch.
Context `{Host}.

(** The first arguments that ask for the usage text. *)
Definition help_flags : list string := ["-h"; "--help"; "help"].

Lemma help_flag_cases (name : string) :
  name ∈ help_flags -> name = "-h" \/ name = "--help" \/ name = "help".
Proof.
  unfold help_flags. rewrite !elem_of_cons, elem_of_nil. tauto.
Qed.

Lemma help_flags_not_commands (name : string) :
  name ∈ help_flags -> lookup_command name COMMANDS = None.
Proof.
  intros Hin. destruct (help_flag_cases _ Hin) as [->|[->| ->]]; reflexivity.
Qed.

Lemma lookup_command_cons (name k : string) (entry : callable * Z * string)
    (rest : list (string * (callable * Z * string))) :
  lookup_command name ((k, entry) :: rest)
  = if String.eqb k name then Some entry else lookup_command name rest.
Proof. reflexivity. Qed.

(** The commands declared with one argument. *)
Lemma one_argument_commands (name : string) (func : callable) (usage : string) :
  lookup_command name COMMANDS = Some (func, 1, usage) ->
  (name = "open" /\ func = one_arg cmd_open /\ usage = "<url>")
  \/ (name = "js" /\ func = one_arg cmd_js /\ usage = "<expression>")
  \/ (name = "click" /\ func = one_arg cmd_click /\ usage = "<selector>").
Proof.
  unfold COMMANDS.
  repeat (rewrite lookup_command_cons;
          match goal with
          | |- context [String.eqb ?k name] =>
              destruct (String.eqb_spec k name) as [<-|_]
          end; [intros E; inversion E; subst; tauto|]).
  discriminate.
Qed.

(** The names in the table. *)
Definition command_names : list string :=
  [ "start"; "setup"; "stop"; "status"; "open"; "js"; "screenshot"; "click";
    "wait"; "push"; "import" ].

Lemma lookup_command_names (name : string) :
  lookup_command name COMMANDS = None <-> name ∉ command_names.
Proof.
  unfold COMMANDS, command_names. split.
  - repeat (rewrite lookup_command_cons;
            match goal with
            | |- context [String.eqb ?k name] =>
                destruct (String.eqb_spec k name) as [<-|?]
            end; [discriminate|]).
    intros _. rewrite !elem_of_cons, elem_of_nil. intuition congruence.
  - intros Hnot.
    repeat (rewrite lookup_command_cons;
            match goal with
            | |- context [String.eqb ?k name] =>
                destruct (String.eqb_spec k name) as [<-|?]
            end;
            [exfalso; apply Hnot; rewrite !elem_of_cons; tauto|]).
    reflexivity.
Qed.

Lemma main_runs (argv : list string) (name : string) (func : callable)
    (nargs : Z) (usage : string) :
  argv !! 1%nat = Some name ->
  lookup_command name COMMANDS = Some (func, nargs, usage) ->
  main argv
  = if nargs =? 0 then func []
    else if nargs =? 1 then
      if (length argv <? 3)%nat then
        print ("Usage: python browser.py " +:+ name +:+ " " +:+ usage);;
        sys_exit 1
      else func [str_join " " (drop 2 argv)]
    else if nargs =? -1 then
      if (2 <? length argv)%nat then func [default "" (argv !! 2%nat)]
      else func []
    else mret tt.
Proof.
  intros Hname Hcmd.
  assert (Hflag : name ∉ help_flags).
  { intros Hin. rewrite (help_flags_not_commands _ Hin) in Hcmd. discriminate. }
  assert (Hlen : (length argv <? 2)%nat = false).
  { apply Nat.ltb_ge. apply lookup_lt_Some in Hname. lia. }
  unfold main. rewrite Hlen, Hname. simpl_default.
  rewrite (bool_decide_eq_false_2 _ Hflag), Hcmd. reflexivity.
Qed.

(** A function with an optional parameter gets the argument after the
    name of the command, if there is one. *)
Lemma optional_arg_call (argv : list string) (f : option string -> M unit) :
  (if (2 <? length argv)%nat
   then optional_arg f [default "" (argv !! 2%nat)]
   else optional_arg f []) = f (argv !! 2%nat).
Proof.
  destruct (2 <? length argv)%nat eqn:Hmore.
  - apply Nat.ltb_lt in Hmore.
    destruct (argv !! 2%nat) eqn:Hfile; [reflexivity|].
    apply lookup_ge_None in Hfile. lia.
  - apply Nat.ltb_ge in Hmore.
    by rewrite (proj2 (lookup_ge_None argv 2) Hmore).
Qed.

(** C7: [main] dispatches over the fixed table [COMMANDS], whose names
    are the eleven of [command_names].  With no argument or a help flag
    it prints the usage and returns; an unknown command name prints
    [Unknown command], the usage, and exits with status 1; a command
    declared with one argument exits with a usage message when the
    argument is missing and is otherwise called with the remaining
    arguments joined by single spaces; a command declared without
    argument is called as it is, and one declared with an optional
    argument is called with the argument after its name, if any. *)
Theorem main_dispatches (argv : list string) :
  ((length argv < 2)%nat
   \/ (exists flag, argv !! 1%nat = Some flag /\ flag ∈ help_flags) ->
   forall w, main argv w = (Ret tt, logged w [EPrint __doc__]))
  /\ (forall name,
        argv !! 1%nat = Some name -> name ∉ help_flags ->
        lookup_command name COMMANDS = None ->
        forall w,
          main argv w
          = (Exit 1, logged w [EPrint ("Unknown command: " +:+ name);
                               EPrint __doc__]))
  /\ (forall name func usage,
        argv !! 1%nat = Some name ->
        lookup_command name COMMANDS = Some (func, 1, usage) ->
        ((length argv < 3)%nat ->
         forall w,
           main argv w
           = (Exit 1,
              logged w [EPrint ("Usage: python browser.py " +:+ name
                                +:+ " " +:+ usage)]))
        /\ ((3 <= length argv)%nat ->
            main argv = func [str_join " " (drop 2 argv)]))
  /\ (forall rest,
        (3 <= length argv)%nat -> rest = str_join " " (drop 2 argv) ->
        (argv !! 1%nat = Some "open" -> main argv = cmd_open rest)
        /\ (argv !! 1%nat = Some "js" -> main argv = cmd_js rest)
        /\ (argv !! 1%nat = Some "click" -> main argv = cmd_click rest))
  /\ (forall name,
        lookup_command name COMMANDS = None <-> name ∉ command_names)
  /\ (forall name func usage,
        argv !! 1%nat = Some name ->
        (lookup_command name COMMANDS = Some (func, 0, usage) ->
         main argv = func [])
        /\ (lookup_command name COMMANDS = Some (func, -1, usage) ->
            main argv = func (take 1 (drop 2 argv))))
  /\ ((argv !! 1%nat = Some "start" -> main argv = cmd_start)
      /\ (argv !! 1%nat = Some "setup" -> main argv = cmd_setup)
      /\ (argv !! 1%nat = Some "stop" -> main argv = cmd_stop)
      /\ (argv !! 1%nat = Some "status" -> main argv = cmd_status)
      /\ (argv !! 1%nat = Some "push" -> main argv = cmd_push)
      /\ (argv !! 1%nat = Some "import" -> main argv = cmd_import)
      /\ (argv !! 1%nat = Some "screenshot" ->
          main argv
          = cmd_screenshot (default "screenshot.png" (argv !! 2%nat)))
      /\ (argv !! 1%nat = Some "wait" -> main argv = cmd_wait (argv !! 2%nat))).
Proof.
  assert (Hshort : forall n, (length argv < n)%nat -> (length argv <? n)%nat = true)
    by (intros n Hn; apply Nat.ltb_lt; exact Hn).
  assert (Hlong : forall n, (n <= length argv)%nat -> (length argv <? n)%nat = false)
    by (intros n Hn; apply Nat.ltb_ge; exact Hn).
  assert (Hhas : forall name, argv !! 1%nat = Some name -> (length argv <? 2)%nat = false).
  { intros name E. apply Nat.ltb_ge. apply lookup_lt_Some in E. lia. }
  split; [|split; [|split; [|split; [|split; [|split]]]]].
  - intros [Hlen|(flag & E & Hflag)] w; unfold main.
    + rewrite (Hshort _ Hlen). reflexivity.
    + rewrite E. simpl_default. rewrite (bool_decide_eq_true_2 _ Hflag).
      rewrite orb_true_r. reflexivity.
  - intros name E Hflag Hnone w. unfold main.
    rewrite (Hhas _ E), E. simpl_default.
    rewrite (bool_decide_eq_false_2 _ Hflag), Hnone. cbn [orb]. cbv iota.
    rewrite run_bind_ret with (a := tt) (w1 := logged w [EPrint ("Unknown command: " +:+ name)])
      by reflexivity.
    rewrite run_print_exit, logged_logged. reflexivity.
  - intros name func usage E Hcmd.
    assert (Hflag : name ∉ help_flags).
    { intros Hin. rewrite (help_flags_not_commands _ Hin) in Hcmd. discriminate. }
    split.
    + intros Hlen w. unfold main.
      rewrite (Hhas _ E), E. simpl_default.
      rewrite (bool_decide_eq_false_2 _ Hflag), Hcmd, (Hshort _ Hlen).
      reflexivity.
    + intros Hlen. unfold main.
      rewrite (Hhas _ E), E. simpl_default.
      rewrite (bool_decide_eq_false_2 _ Hflag), Hcmd, (Hlong _ Hlen).
      reflexivity.
  - intros rest Hlen ->.
    repeat split; intros E; unfold main;
      rewrite (Hhas _ E), E; simpl_default;
      rewrite bool_decide_eq_false_2
        by (unfold help_flags; rewrite !elem_of_cons, elem_of_nil;
            intros [?|[?|[?|[]]]]; discriminate);
      cbn [orb]; cbv iota;
      change (lookup_command _ COMMANDS) with
        (Some (one_arg cmd_open, 1, "<url>")) ||
      change (lookup_command _ COMMANDS) with
        (Some (one_arg cmd_js, 1, "<expression>")) ||
      change (lookup_command _ COMMANDS) with
        (Some (one_arg cmd_click, 1, "<selector>"));
      cbv iota beta; rewrite (Hlong _ Hlen); reflexivity.
  - apply lookup_command_names.
  - intros name func usage Hname. split; intros Hcmd.
    + by rewrite (main_runs argv _ _ _ _ Hname Hcmd).
    + rewrite (main_runs argv _ _ _ _ Hname Hcmd). cbn [Z.eqb]. cbv iota.
      destruct (2 <? length argv)%nat eqn:Hmore.
      * apply Nat.ltb_lt in Hmore.
        destruct argv as [|a0 [|a1 [|a2 argv]]]; simpl in Hmore; try lia.
        reflexivity.
      * apply Nat.ltb_ge in Hmore.
        destruct argv as [|a0 [|a1 [|a2 argv]]]; simpl in Hmore; try lia;
          reflexivity.
  - repeat split; intros Hname;
      rewrite (main_runs argv _ _ _ _ Hname eq_refl);
      try reflexivity; cbn [Z.eqb]; cbv iota; apply optional_arg_call.
Qed.

End Dispatch.

(** ** Target selection *)

Section Targets.
Context `{Host}.

(** A JSON object. *)
Definition is_dict (v : pyval) : Prop := exists kvs, v = PDict kvs.

(** The field [key] of a target, [None] when it has none. *)
Definition dict_field (key : string) (t : pyval) : pyval :=
  match t with
  | PDict kvs => default PNone (assoc key kvs)
  | _ => PNone
  end.

(** The target is of type 'page'. *)
Definition is_page_target (t : pyval) : bool :=
  py_eq_str (dict_field "type" t) "page".

(** What the specification says [get_page_ws] returns for a list of
    targets: the debugger URL of the first page, or [None]. *)
Definition first_page_url (targets : list pyval) : pyval :=
  match List.find is_page_target targets with
  | Some t => dict_field "webSocketDebuggerUrl" t
  | None => PNone
  end.

Lemma first_page_scan (targets : list pyval) :
  Forall is_dict targets -> first_page targets = Ok (first_page_url targets).
Proof.
  induction 1 as [|t rest [kvs ->] _ IH]; [reflexivity|].
  unfold first_page_url. simpl.
  unfold is_page_target, dict_field.
  destruct (py_eq_str (default PNone (assoc "type" kvs)) "page"); [reflexivity|].
  exact IH.
Qed.

(** C6: [get_page_ws] scans the list the [/json] endpoint returned once
    and gives the [webSocketDebuggerUrl] of the first target whose type
    is 'page', or [None] when there is none; on [None] [require_page]
    prints a message and exits with status 1. *)
Theorem get_page_ws_first_page :
  (forall w targets w1,
     cdp_http "/json" w = (Ret (PList targets), w1) ->
     Forall is_dict targets ->
     get_page_ws w = (Ret (first_page_url targets), w1))
  /\ (forall w ws w1,
        get_page_ws w = (Ret ws, w1) -> truthy ws = false ->
        require_page w = (Exit 1, logged w1 [EPrint "No active page found."])).
Proof.
  split.
  - intros w targets w1 Hhttp Hdicts. unfold get_page_ws.
    rewrite (run_bind_ret _ _ _ _ _ Hhttp).
    assert (Hiter : py_iter (py_or (PList targets) (PList [])) = Ok targets)
      by (destruct targets; reflexivity).
    rewrite (run_bind_ret _ _ _ _ _ (run_lift_ok _ _ _ Hiter)).
    apply run_lift_ok, first_page_scan, Hdicts.
  - intros w ws w1 Hget Hfalsy. unfold require_page.
    rewrite (run_bind_ret _ _ _ _ _ Hget), Hfalsy. reflexivity.
Qed.

End Targets.

(** ** One command, one connection *)

Ltac world_eq :=
  unfold logged, with_ws, with_trace, with_files, with_http_count; simpl;
  f_equal; rewrite <- ?app_assoc; try reflexivity.

Lemma logged_nil (w : World) : logged w [] = w.
Proof. destruct w. unfold logged, with_trace; simpl. by rewrite app_nil_r. Qed.

Lemma with_ws_same (w : World) : with_ws (ws_count w) (ws_open w) w = w.
Proof. by destruct w. Qed.

Section Connection.
Context `{Host}.

(** The command [cdp_send] builds: id 1, the method, and the parameters
    when there are any. *)
Definition command (method : string) (params : pyval) : pyval :=
  PDict ([("id", PInt 1); ("method", PStr method)]
         ++ if truthy params then [("params", params)] else []).

(** What a call of [cdp_send] does on connection [n]: it connects, sends
    [msg], receives [datas], and closes. *)
Definition session (n : nat) (url msg : string) (datas : list string)
  : list event :=
  [EWsConnect url; EWsSend n msg] ++ map (EWsRecv n) datas ++ [EWsClose n].

(** A message that is not the response: an event, or a response with
    another id. *)
Definition other_message (text : string) : Prop :=
  exists v id,
    json_loads text = Ok v /\ py_get v "id" PNone = Ok id
    /\ py_eq_int id 1 = false.

(** A message that is the response to the command with id 1. *)
Definition response_message (text : string) (resp : pyval) : Prop :=
  exists id,
    json_loads text = Ok resp /\ py_get resp "id" PNone = Ok id
    /\ py_eq_int id 1 = true.

(** The receive loop touches connection [ws] and the history only. *)
Lemma recv_loop_any (rounds ws : nat) (w : World) r w' :
  cdp_recv_loop rounds ws w = (r, w') ->
  exists datas open',
    w' = with_ws (ws_count w) open' (logged w (map (EWsRecv ws) datas))
    /\ delete ws open' = delete ws (ws_open w).
Proof.
  revert w. induction rounds as [|rounds IH]; intros w; simpl.
  - intros [= <- <-]. exists [], (ws_open w).
    by rewrite logged_nil, with_ws_same.
  - rewrite run_bind. unfold ws_recv at 1.
    destruct (ws_open w !! ws) as [peer|] eqn:Hpeer.
    2:{ intros [= <- <-]. exists [], (ws_open w).
        by rewrite logged_nil, with_ws_same. }
    destruct (peer_frames peer) as [|[data|e] rest] eqn:Hframes.
    + intros [= <- <-]. exists [], (ws_open w).
      by rewrite logged_nil, with_ws_same.
    + set (w1 := with_ws _ _ _).
      assert (Hdone : w1 = with_ws (ws_count w) (ws_open w1)
                             (logged w (map (EWsRecv ws) [data])))
        by reflexivity.
      assert (Hopen : delete ws (ws_open w1) = delete ws (ws_open w))
        by apply delete_insert_eq.
      rewrite run_bind. unfold loads at 1.
      destruct (json_loads data) as [resp|e]; simpl.
      2:{ intros [= <- <-]. eauto. }
      rewrite run_bind.
      destruct (py_get resp "id" PNone) as [id|e]; simpl.
      2:{ intros [= <- <-]. eauto. }
      destruct (py_eq_int id 1).
      * intros [= <- <-]. eauto.
      * intros Hloop. destruct (IH _ Hloop) as (datas & open' & -> & Hdel).
        exists (data :: datas), open'. split.
        -- subst w1. world_eq.
        -- by rewrite Hdel.
    + intros [= <- <-].
      eexists [], _. split.
      * rewrite logged_nil. reflexivity.
      * apply delete_insert_eq.
Qed.

(** The receive loop skips what is not the response and returns the
    response. *)
Lemma recv_loop_skips (pre : list string) :
  forall rounds ws w peer text resp post,
    ws_open w !! ws = Some peer ->
    peer_frames peer = (map Frame pre ++ Frame text :: post)%list ->
    Forall other_message pre ->
    response_message text resp ->
    (length pre < rounds)%nat ->
    cdp_recv_loop rounds ws w
    = (Ret resp,
       with_ws (ws_count w) (<[ws := with_frames post peer]> (ws_open w))
         (logged w (map (EWsRecv ws) (pre ++ [text])))).
Proof.
  induction pre as [|first pre IH];
    intros rounds ws w peer text resp post Hpeer Hframes Hpre Hresp Hrounds;
    (destruct rounds as [|rounds]; [simpl in Hrounds; lia|]); simpl.
  - destruct Hresp as (id & Hloads & Hid & Hone).
    rewrite run_bind. unfold ws_recv at 1. rewrite Hpeer, Hframes. simpl.
    rewrite run_bind. unfold loads at 1. rewrite Hloads. simpl.
    rewrite run_bind, Hid. simpl. rewrite Hone. reflexivity.
  - inversion Hpre as [|? ? (v & id & Hloads & Hid & Hother) Hrest]; subst.
    rewrite run_bind. unfold ws_recv at 1. rewrite Hpeer, Hframes. simpl.
    rewrite run_bind. unfold loads at 1. rewrite Hloads. simpl.
    rewrite run_bind, Hid. simpl. rewrite Hother.
    rewrite (IH rounds ws _
               (with_frames (map Frame pre ++ Frame text :: post) peer)
               text resp post);
      [| apply lookup_insert_eq | reflexivity | exact Hrest | exact Hresp
       | simpl in Hrounds; lia].
    f_equal. unfold logged, with_ws, with_trace; simpl.
    rewrite insert_insert_eq, <- app_assoc. reflexivity.
Qed.

(** Sending the command and waiting for the response touches connection
    [ws] and the history only, however it ends. *)
Lemma send_and_receive (ws : nat) (msg : string) (w : World) r w' :
  (ws_send ws msg;; n ← pending_frames ws; cdp_recv_loop (S n) ws) w = (r, w') ->
  exists datas open',
    w' = with_ws (ws_count w) open'
           (logged w (EWsSend ws msg :: map (EWsRecv ws) datas))
    /\ delete ws open' = delete ws (ws_open w).
Proof.
  rewrite run_bind. unfold ws_send at 1.
  assert (Hstop : forall e,
            (Raise e, with_trace (trace w ++ [EWsSend ws msg]) w) = (r, w') ->
            exists datas open',
              w' = with_ws (ws_count w) open'
                     (logged w (EWsSend ws msg :: map (EWsRecv ws) datas))
              /\ delete ws open' = delete ws (ws_open w)).
  { intros e [= <- <-]. exists [], (ws_open w). split; [|reflexivity].
    symmetry. apply (with_ws_same (logged w [EWsSend ws msg])). }
  destruct (ws_open w !! ws) as [peer|]; [|apply Hstop].
  destruct (peer_send_fails peer); [apply Hstop|].
  rewrite run_bind. unfold pending_frames at 1.
  intros Hloop. destruct (recv_loop_any _ _ _ _ _ Hloop) as (datas & open' & -> & Hdel).
  exists datas, open'. split; [world_eq | exact Hdel].
Qed.

Lemma cdp_send_command (method : string) (params : pyval) :
  PDict (if truthy params
         then ([("id", PInt 1); ("method", PStr method)]
               ++ [("params", params)])%list
         else [("id", PInt 1); ("method", PStr method)])
  = command method params.
Proof. unfold command. by destruct (truthy params). Qed.

(** How a call of [cdp_send] can go: no connection at all, a refused
    connection, or one whole session. *)
Lemma cdp_send_runs (ws_url : pyval) (method : string) (params : pyval)
    (w : World) r w' :
  cdp_send ws_url method params w = (r, w') ->
  ((forall url, ws_url <> PStr url) /\ r = Raise TypeError /\ w' = w)
  \/ (exists url e,
        ws_url = PStr url
        /\ peer_refuses (ws_oracle w (ws_count w) url) = Some e
        /\ r = Raise e
        /\ w' = with_ws (S (ws_count w)) (ws_open w) (logged w [EWsConnect url]))
  \/ (exists url datas,
        ws_url = PStr url
        /\ w' = with_ws (S (ws_count w)) (delete (ws_count w) (ws_open w))
                  (logged w (session (ws_count w) url
                               (json_dumps (command method params)) datas))).
Proof.
  intros Hrun. unfold cdp_send in Hrun. rewrite run_bind in Hrun.
  destruct ws_url as [| | | |url| |];
    try (injection Hrun as <- <-; left; repeat split; discriminate).
  unfold create_connection at 1 in Hrun.
  destruct (peer_refuses (ws_oracle w (ws_count w) url)) as [e|] eqn:Hpeer.
  { injection Hrun as <- <-. right; left. by exists url, e. }
  right; right. exists url.
  unfold try_finally in Hrun. cbv zeta in Hrun.
  rewrite cdp_send_command in Hrun.
  match type of Hrun with
  | context [let (_, _) := ?body ?w1 in _] =>
      destruct (body w1) as [r1 w2] eqn:Hbody
  end.
  destruct (send_and_receive _ _ _ _ _ Hbody) as (datas & open' & -> & Hdel).
  unfold ws_close in Hrun. injection Hrun as <- <-.
  exists datas. split; [reflexivity|]. simpl in *.
  rewrite delete_insert_eq in Hdel. rewrite Hdel.
  unfold session. world_eq.
Qed.

(** C5: every call of [cdp_send] opens a connection of its own, sends one
    message on it, and closes it before it returns or raises; when the
    connection cannot be opened there is nothing to close. *)
Theorem cdp_send_closes (ws_url : pyval) (method : string) (params : pyval)
    (w : World) r w' :
  cdp_send ws_url method params w = (r, w') ->
  ((forall url, ws_url <> PStr url) /\ r = Raise TypeError /\ w' = w)
  \/ (exists url e,
        ws_url = PStr url
        /\ peer_refuses (ws_oracle w (ws_count w) url) = Some e
        /\ r = Raise e
        /\ w' = with_ws (S (ws_count w)) (ws_open w) (logged w [EWsConnect url]))
  \/ (exists url datas,
        ws_url = PStr url
        /\ w' = with_ws (S (ws_count w)) (delete (ws_count w) (ws_open w))
                  (logged w (session (ws_count w) url
                               (json_dumps (command method params)) datas))).
Proof. apply cdp_send_runs. Qed.

(** C2: [cdp_send] sends one command, with id 1, and returns the first
    message received whose [id] equals 1; the events and the responses
    with other ids that arrive before it are skipped. *)
Theorem cdp_send_correlates (url method : string) (params : pyval)
    (w : World) (pre : list string) (text : string) (resp : pyval)
    (post : list ws_frame) :
  let peer := ws_oracle w (ws_count w) url in
  peer_refuses peer = None ->
  peer_send_fails peer = None ->
  peer_frames peer = (map Frame pre ++ Frame text :: post)%list ->
  Forall other_message pre ->
  response_message text resp ->
  cdp_send (PStr url) method params w
  = (Ret resp,
     with_ws (S (ws_count w)) (delete (ws_count w) (ws_open w))
       (logged w (session (ws_count w) url
                    (json_dumps (command method params)) (pre ++ [text])))).
Proof.
  intros peer Hopen Hsend Hframes Hpre Hresp.
  unfold cdp_send. rewrite run_bind. unfold create_connection at 1.
  fold peer. rewrite Hopen.
  unfold try_finally. cbv zeta. rewrite cdp_send_command.
  rewrite run_bind. unfold ws_send at 1. simpl ws_open.
  rewrite lookup_insert_eq, Hsend.
  rewrite run_bind. unfold pending_frames at 1. simpl ws_open.
  rewrite lookup_insert_eq.
  rewrite (recv_loop_skips pre _ _ _ peer text resp post);
    [| apply lookup_insert_eq | exact Hframes | exact Hpre | exact Hresp
     | rewrite Hframes, length_app, length_map; simpl; lia].
  unfold ws_close. f_equal. simpl.
  rewrite insert_insert_eq, delete_insert_eq.
  unfold session. world_eq.
Qed.

End Connection.

(** ** Stopping the browser *)

Lemma run_bind_returns {A B : Type} (m : M A) (k : A -> M B) w b w' :
  (m ≫= k) w = (Ret b, w') ->
  exists a w1, m w = (Ret a, w1) /\ k a w1 = (Ret b, w').
Proof.
  intros Hrun. apply run_bind_inv in Hrun.
  destruct Hrun as [Hret|[(e & _ & ?)|(c & _ & ?)]]; [exact Hret| |]; discriminate.
Qed.

Ltac returns H :=
  let a := fresh "a" in
  let w := fresh "w" in
  let Hstep := fresh "Hstep" in
  apply run_bind_returns in H; destruct H as (a & w & Hstep & H).

Section Stop.
Context `{Host}.

(** The state [save_state] writes: a pid and a port. *)
Definition well_formed_state (state : pyval) : Prop :=
  exists pid port, state = PDict [("pid", PInt pid); ("port", PInt port)].

(** What [cmd_stop] does about the process [pid] in the world [w]. *)
Definition stop_events (w : World) (pid : Z) : list event :=
  if pid =? 0 then []
  else
    [ ERun ["taskkill"; "/pid"; str_of_Z pid; "/f"; "/t"];
      EPrint (match run_result w with
              | None => "Chrome stopped (PID " +:+ str_of_Z pid +:+ ")"
              | Some e => "Could not stop Chrome: " +:+ str_of_exn e
              end) ].

Lemma load_state_present (w : World) (text : string) :
  files w !! STATE_FILE = Some text ->
  load_state w = lift (json_loads text) w.
Proof.
  intros Hfile. unfold load_state.
  rewrite run_bind. unfold path_exists at 1. rewrite Hfile.
  rewrite bool_decide_eq_true_2 by eauto.
  rewrite run_bind. unfold read_text at 1. rewrite Hfile. reflexivity.
Qed.

Lemma load_state_absent (w : World) :
  files w !! STATE_FILE = None -> load_state w = (Ret PNone, w).
Proof.
  intros Hfile. unfold load_state.
  rewrite run_bind. unfold path_exists at 1. rewrite Hfile.
  rewrite bool_decide_eq_false_2 by (intros [? ?]; discriminate).
  reflexivity.
Qed.

(** [cmd_stop] with a saved state of the form [save_state] writes. *)
Lemma cmd_stop_runs (w : World) (text : string) (pid port : Z) :
  files w !! STATE_FILE = Some text ->
  json_loads text = Ok (PDict [("pid", PInt pid); ("port", PInt port)]) ->
  cmd_stop w
  = (Ret tt,
     with_files (delete STATE_FILE (files w))
       (logged w (stop_events w pid ++ [EUnlink STATE_FILE]))).
Proof.
  intros Hfile Hloads.
  unfold cmd_stop. rewrite run_bind, (load_state_present _ _ Hfile), Hloads.
  run. cbn [truthy negb]. cbv iota.
  cbn [py_get assoc String.eqb Ascii.eqb Bool.eqb default from_option id]. run.
  unfold stop_events. cbn [truthy].
  destruct (pid =? 0); cbn [negb]; run.
  + unfold unlink. f_equal.
  + unfold try_except. run. unfold subprocess_run at 1.
    destruct (run_result w); cbv iota beta zeta; run.
    * unfold unlink, print, emit. f_equal. world_eq.
    * unfold unlink, print, emit. f_equal. world_eq.
Qed.

(** C10: with a well-formed saved state, [cmd_stop] returns normally and
    the state file is gone afterwards, whether or not killing the process
    worked; without a state file it says there is nothing to stop and
    changes nothing. *)
Theorem cmd_stop_unlinks (w : World) :
  (forall text state,
     files w !! STATE_FILE = Some text ->
     json_loads text = Ok state ->
     well_formed_state state ->
     exists w' evs,
       cmd_stop w = (Ret tt, w')
       /\ w' = with_files (delete STATE_FILE (files w))
                 (logged w (evs ++ [EUnlink STATE_FILE]))
       /\ files w' !! STATE_FILE = None)
  /\ (files w !! STATE_FILE = None ->
      cmd_stop w = (Ret tt, logged w [EPrint "No saved state. Nothing to stop."])).
Proof.
  split.
  - intros text state Hfile Hloads (pid & port & ->).
    eexists _, (stop_events w pid).
    split; [by apply (cmd_stop_runs w text pid port)|].
    split; [reflexivity|]. simpl. apply lookup_delete_eq.
  - intros Hfile. unfold cmd_stop.
    rewrite run_bind, (load_state_absent _ Hfile). reflexivity.
Qed.

End Stop.

(** ** The extension ID *)

Section ExtensionId.
Context `{Host}.

Lemma cws_ext_id_not_builtin : CWS_EXT_ID ∉ BUILTIN_EXT_IDS.
Proof.
  unfold BUILTIN_EXT_IDS, CWS_EXT_ID.
  rewrite !elem_of_union, !elem_of_singleton.
  intros [[[[[?|?]|?]|?]|?]|?]; discriminate.
Qed.

(** [get_ext_id] reads and never writes. *)
Lemma get_ext_id_reads (w : World) r w' :
  get_ext_id w = (r, w') ->
  w' = w
  /\ (r = Ret PNone
      \/ (exists e, r = Raise e)
      \/ exists id, r = Ret (PStr id) /\ id <> "" /\ id ∉ BUILTIN_EXT_IDS).
Proof.
  unfold get_ext_id. rewrite run_bind. unfold path_exists at 1.
  destruct (bool_decide _); run.
  2:{ intros [= <- <-]. auto. }
  unfold read_text at 1. destruct (files w !! EXT_ID_FILE) as [text|]; run.
  2:{ intros [= <- <-]. eauto. }
  destruct (negb (String.eqb (str_strip text) "")) eqn:Hempty; cbn [andb].
  2:{ run. intros [= <- <-]. auto. }
  destruct (bool_decide (str_strip text ∉ BUILTIN_EXT_IDS)) eqn:Hbuiltin; run.
  2:{ intros [= <- <-]. auto. }
  intros [= <- <-]. split; [reflexivity|]. right; right.
  exists (str_strip text). split; [reflexivity|]. split.
  - intros Heq. rewrite Heq in Hempty. discriminate.
  - apply bool_decide_eq_true in Hbuiltin. exact Hbuiltin.
Qed.

(** An ID the scan returns is not built in and is in the cache file by
    then. *)
Lemma scan_targets_returns (targets : list pyval) :
  forall w id w',
    scan_targets targets w = (Ret (Some id), w') ->
    (id ∉ BUILTIN_EXT_IDS)
    /\ files w' !! EXT_ID_FILE = Some id
    /\ last (trace w') = Some (EWrite EXT_ID_FILE id).
Proof.
  induction targets as [|t rest IH]; intros w id w'; simpl.
  - rewrite run_ret. discriminate.
  - rewrite run_bind.
    destruct (py_get t "url" (PStr "")) as [url'|e']; run; [|discriminate].
    destruct url' as [| | | |u| |]; run; try discriminate.
    destruct (String.prefix "chrome-extension://" u); [|apply IH].
    destruct (list_index (str_split "/" u) 2) as [ext_id|e']; run; [|discriminate].
    destruct (bool_decide (ext_id ∉ BUILTIN_EXT_IDS)) eqn:Hbuiltin; [|apply IH].
    unfold mkdir, emit, write_text. run.
    intros [= <- <-].
    split; [apply bool_decide_eq_true in Hbuiltin; exact Hbuiltin|]. simpl. split.
    + apply lookup_insert_eq.
    + apply last_snoc.
Qed.

(** What a [try] block whose handler gives [None] returned when the
    result is not [None]. *)
Lemma try_except_found {A : Type} (body : M (option A)) (w : World) a w' :
  try_except body (fun _ => mret None) w = (Ret (Some a), w') ->
  body w = (Ret (Some a), w').
Proof.
  unfold try_except. destruct (body w) as [[found|e|c] w1]; [auto| |];
    rewrite ?run_ret; discriminate.
Qed.

(** C8: neither [get_ext_id] nor [discover_ext_id] returns a built-in
    extension ID, and an ID [discover_ext_id] returns is in the cache
    file, written as the last thing before the return. *)
Theorem ext_id_never_builtin :
  (forall w v w',
     get_ext_id w = (Ret v, w') ->
     v = PNone \/ exists id, v = PStr id /\ id ∉ BUILTIN_EXT_IDS)
  /\ (forall w v w',
        discover_ext_id w = (Ret v, w') ->
        v = PNone
        \/ exists id,
            v = PStr id
            /\ (id ∉ BUILTIN_EXT_IDS)
            /\ files w' !! EXT_ID_FILE = Some id
            /\ last (trace w') = Some (EWrite EXT_ID_FILE id)).
Proof.
  split.
  - intros w v w' Hrun.
    destruct (get_ext_id_reads _ _ _ Hrun) as [_ [[= ->]|[[e [=]]|(id & [= ->] & _ & Hid)]]];
      eauto.
  - intros w v w' Hrun. unfold discover_ext_id in Hrun.
    returns Hrun. destruct (negb (truthy a)).
    { rewrite run_ret in Hrun. injection Hrun as <- <-. by left. }
    returns Hrun. destruct a0 as [id|].
    { rewrite run_ret in Hrun. injection Hrun as <- <-. right. exists id.
      split; [reflexivity|].
      apply try_except_found in Hstep0.
      do 4 returns Hstep0.
      eapply scan_targets_returns, Hstep0. }
    returns Hrun. destruct a0 as [id|].
    2:{ rewrite run_ret in Hrun. injection Hrun as <- <-. by left. }
    rewrite run_ret in Hrun. injection Hrun as <- <-. right. exists id.
    split; [reflexivity|].
    apply try_except_found in Hstep1.
    returns Hstep1.
    destruct (truthy a0); [|rewrite run_ret in Hstep1; discriminate].
    cbv zeta in Hstep1. do 3 returns Hstep1.
    destruct (negb (truthy a3)); [|rewrite run_ret in Hstep1; discriminate].
    do 6 returns Hstep1.
    destruct a9; [|rewrite run_ret in Hstep1; discriminate].
    do 3 returns Hstep1.
    rewrite run_ret in Hstep1. inversion Hstep1; subst; clear Hstep1.
    match goal with
    | Hw : write_text _ _ _ = _ |- _ =>
        unfold write_text in Hw; inversion Hw; subst; clear Hw
    end.
    split; [apply cws_ext_id_not_builtin|]. simpl. split.
    + apply lookup_insert_eq.
    + apply last_snoc.
Qed.

End ExtensionId.

(** ** What every piece of the script respects

    Three things are followed through the whole script: which files may
    change, that the history only grows, and what has happened when the
    script calls [sys.exit]. *)

(** Files outside [S] are as they were. *)
Definition frame (S : string -> Prop) (w w' : World) : Prop :=
  forall path, ~ S path -> files w' !! path = files w !! path.

(** A line printed on the standard output or the standard error. *)
Definition message (e : event) : Prop :=
  exists line, e = EPrint line \/ e = EPrintErr line.

(** The actions end with a printed message, or with a printed message
    and the killing of the child process. *)
Definition ends_with_message (evs : list event) : Prop :=
  exists pre e tail,
    evs = pre ++ e :: tail /\ message e
    /\ (tail = [] \/ exists pid, tail = [EKill pid]).

(** A rule about exits: which actions and which status are acceptable.
    It must not depend on what was done earlier. *)
Class ExitRule (E : list event -> Z -> Prop) : Prop :=
  exit_rule_app : forall evs1 evs2 c, E evs2 c -> E (evs1 ++ evs2)%list c.

(** No exit at all. *)
Definition never : list event -> Z -> Prop := fun _ _ => False.

(** Exit with status 1, after a message. *)
Definition status_1_after_message : list event -> Z -> Prop :=
  fun evs c => c = 1 /\ ends_with_message evs.

#[global] Instance never_rule : ExitRule never.
Proof. intros ? ? ? []. Qed.

#[global] Instance status_1_rule : ExitRule status_1_after_message.
Proof.
  intros evs1 evs2 c [-> (pre & e & tail & -> & Hmsg & Htail)].
  split; [reflexivity|]. exists (evs1 ++ pre)%list, e, tail.
  by rewrite <- app_assoc.
Qed.

Definition obeys {A : Type} (S : string -> Prop)
    (E : list event -> Z -> Prop) (m : M A) : Prop :=
  forall w r w',
    m w = (r, w') ->
    frame S w w'
    /\ exists evs,
        trace w' = (trace w ++ evs)%list /\ forall c, r = Exit c -> E evs c.

Lemma frame_refl S w : frame S w w.
Proof. by intros ? ?. Qed.

Lemma frame_trans S w1 w2 w3 : frame S w1 w2 -> frame S w2 w3 -> frame S w1 w3.
Proof. intros H12 H23 p Hp. by rewrite H23, H12. Qed.

Section Obeys.
Context {S : string -> Prop} {E : list event -> Z -> Prop} `{!ExitRule E}.

(** An action that leaves the files alone, logs [evs] and does not
    exit. *)
Lemma obeys_step {A : Type} (m : M A) (evs : list event) :
  (forall w r w',
     m w = (r, w') ->
     files w' = files w /\ trace w' = (trace w ++ evs)%list
     /\ forall c, r <> Exit c) ->
  obeys S E m.
Proof.
  intros Hm w r w' Hrun. destruct (Hm _ _ _ Hrun) as (Hfiles & Htrace & Hexit).
  split; [intros p _; by rewrite Hfiles|].
  exists evs. split; [exact Htrace|]. intros c ->. by destruct (Hexit c).
Qed.

Lemma obeys_ret {A : Type} (a : A) : obeys S E (mret a).
Proof.
  intros w r w' [= <- <-]. split; [apply frame_refl|].
  exists []. by rewrite app_nil_r.
Qed.

Lemma obeys_raise {A : Type} (e : exn) : obeys S E (raise (A := A) e).
Proof.
  intros w r w' [= <- <-]. split; [apply frame_refl|].
  exists []. by rewrite app_nil_r.
Qed.

Lemma obeys_lift {A : Type} (x : res A) : obeys S E (lift x).
Proof. destruct x; [apply obeys_ret | apply obeys_raise]. Qed.

Lemma obeys_bind {A B : Type} (m : M A) (k : A -> M B) :
  obeys S E m -> (forall a, obeys S E (k a)) -> obeys S E (m ≫= k).
Proof.
  intros Hm Hk w r w' Hrun.
  destruct (run_bind_inv _ _ _ _ _ Hrun)
    as [(a & w1 & Hfirst & Hrest)|[(e & Hfirst & ->)|(c & Hfirst & ->)]].
  - destruct (Hm _ _ _ Hfirst) as (Hf1 & evs1 & Ht1 & _).
    destruct (Hk _ _ _ _ Hrest) as (Hf2 & evs2 & Ht2 & Hexit).
    split; [eapply frame_trans; eauto|].
    exists (evs1 ++ evs2)%list. split; [by rewrite Ht2, Ht1, app_assoc|].
    intros c Hc. apply exit_rule_app, Hexit, Hc.
  - destruct (Hm _ _ _ Hfirst) as (Hf1 & evs1 & Ht1 & Hexit).
    split; [exact Hf1|]. exists evs1. split; [exact Ht1|]. discriminate.
  - destruct (Hm _ _ _ Hfirst) as (Hf1 & evs1 & Ht1 & Hexit).
    split; [exact Hf1|]. exists evs1. split; [exact Ht1|].
    intros c' [= <-]. by apply Hexit.
Qed.

Lemma obeys_try_except {A : Type} (body : M A) (handler : exn -> M A) :
  obeys S E body -> (forall e, obeys S E (handler e)) ->
  obeys S E (try_except body handler).
Proof.
  intros Hbody Hhandler w r w' Hrun. unfold try_except in Hrun.
  destruct (body w) as [[a|e|c] w1] eqn:Hfirst.
  - injection Hrun as <- <-. exact (Hbody _ _ _ Hfirst).
  - destruct (Hbody _ _ _ Hfirst) as (Hf1 & evs1 & Ht1 & _).
    destruct (Hhandler _ _ _ _ Hrun) as (Hf2 & evs2 & Ht2 & Hexit).
    split; [eapply frame_trans; eauto|].
    exists (evs1 ++ evs2)%list. split; [by rewrite Ht2, Ht1, app_assoc|].
    intros c Hc. apply exit_rule_app, Hexit, Hc.
  - injection Hrun as <- <-. exact (Hbody _ _ _ Hfirst).
Qed.

Lemma obeys_emit (e : event) : obeys S E (emit e).
Proof.
  apply (obeys_step _ [e]). intros w r w' [= <- <-].
  repeat split. discriminate.
Qed.

Lemma obeys_print (line : string) : obeys S E (print line).
Proof. apply obeys_emit. Qed.

Lemma obeys_print_err (line : string) : obeys S E (print_err line).
Proof. apply obeys_emit. Qed.

Lemma obeys_mkdir (path : string) : obeys S E (mkdir path).
Proof. apply obeys_emit. Qed.

Lemma obeys_sleep `{Host} (secs : pyfloat) : obeys S E (sleep secs).
Proof.
  unfold sleep. destruct secs as [| |m e]; [apply obeys_raise..|].
  destruct (_ || _)%bool; [apply obeys_raise|].
  destruct (m <? 0); [apply obeys_raise | apply obeys_emit].
Qed.

Lemma obeys_urlopen (url : string) : obeys S E (urlopen url).
Proof.
  apply (obeys_step _ [EHttpGet url]). intros w r w'. unfold urlopen.
  destruct (http_oracle w (http_count w) url); intros [= <- <-];
    repeat split; discriminate.
Qed.

Lemma obeys_path_exists (path : string) : obeys S E (path_exists path).
Proof.
  apply (obeys_step _ []). intros w r w' [= <- <-].
  rewrite app_nil_r. repeat split. discriminate.
Qed.

Lemma obeys_read_text (path : string) : obeys S E (read_text path).
Proof.
  apply (obeys_step _ []). intros w r w'. unfold read_text.
  destruct (files w !! path); intros [= <- <-];
    rewrite app_nil_r; repeat split; discriminate.
Qed.

Lemma obeys_write_text (path content : string) :
  S path -> obeys S E (write_text path content).
Proof.
  intros Hpath w r w' [= <- <-]. split.
  - intros p Hp. simpl. apply lookup_insert_ne. by intros ->.
  - exists [EWrite path content]. split; [reflexivity|]. discriminate.
Qed.

Lemma obeys_unlink (path : string) : S path -> obeys S E (unlink path).
Proof.
  intros Hpath w r w' [= <- <-]. split.
  - intros p Hp. simpl. apply lookup_delete_ne. by intros ->.
  - exists [EUnlink path]. split; [reflexivity|]. discriminate.
Qed.

Lemma obeys_popen (args : list string) : obeys S E (popen args).
Proof.
  apply (obeys_step _ [EPopen args]). intros w r w'. unfold popen.
  destruct (popen_result w); intros [= <- <-]; repeat split; discriminate.
Qed.

Lemma obeys_subprocess_run (args : list string) :
  obeys S E (subprocess_run args).
Proof.
  apply (obeys_step _ [ERun args]). intros w r w'. unfold subprocess_run.
  destruct (run_result w); intros [= <- <-]; repeat split; discriminate.
Qed.

End Obeys.

Section ObeysMore.
Context {S : string -> Prop} {E : list event -> Z -> Prop} `{!ExitRule E}.

(** What never exits obeys every rule about exits. *)
Lemma obeys_never {A : Type} (m : M A) : obeys S never m -> obeys S E m.
Proof.
  intros Hm w r w' Hrun. destruct (Hm _ _ _ Hrun) as (Hf & evs & Ht & Hexit).
  split; [exact Hf|]. exists evs. split; [exact Ht|].
  intros c Hc. destruct (Hexit c Hc).
Qed.

Lemma obeys_proc_kill (pid : Z) : obeys S E (proc_kill pid).
Proof. apply obeys_emit. Qed.

Lemma obeys_create_connection (url : pyval) : obeys S E (create_connection url).
Proof.
  unfold create_connection. destruct url as [| | | |u| |];
    try apply obeys_raise.
  apply (obeys_step _ [EWsConnect u]). intros w r w'.
  destruct (peer_refuses _); intros [= <- <-]; repeat split; discriminate.
Qed.

Lemma obeys_ws_send (ws : nat) (msg : string) : obeys S E (ws_send ws msg).
Proof.
  apply (obeys_step _ [EWsSend ws msg]). intros w r w'. unfold ws_send.
  destruct (ws_open w !! ws) as [peer|]; [destruct (peer_send_fails peer)|];
    intros [= <- <-]; repeat split; discriminate.
Qed.

Lemma obeys_ws_close (ws : nat) : obeys S E (ws_close ws).
Proof.
  apply (obeys_step _ [EWsClose ws]). intros w r w' [= <- <-].
  repeat split. discriminate.
Qed.

Lemma obeys_ws_recv (ws : nat) : obeys S E (ws_recv ws).
Proof.
  intros w r w'. unfold ws_recv.
  destruct (ws_open w !! ws) as [peer|];
    [destruct (peer_frames peer) as [|[data|e] rest]|];
    intros [= <- <-]; (split; [by intros p _|]);
    (exists [] + exists [EWsRecv ws data]); simpl; rewrite ?app_nil_r;
    (split; [reflexivity | discriminate]).
Qed.

Lemma obeys_pending_frames (ws : nat) : obeys S E (pending_frames ws).
Proof.
  apply (obeys_step _ []). intros w r w' [= <- <-].
  rewrite app_nil_r. repeat split. discriminate.
Qed.

End ObeysMore.

Lemma obeys_try_finally {A : Type} (S : string -> Prop)
    (body : M A) (cleanup : M unit) :
  obeys S never body -> obeys S never cleanup ->
  obeys S never (try_finally body cleanup).
Proof.
  intros Hbody Hcleanup w r w' Hrun. unfold try_finally in Hrun.
  destruct (body w) as [r1 w1] eqn:Hfirst.
  destruct (cleanup w1) as [r2 w2] eqn:Hsecond.
  destruct (Hbody _ _ _ Hfirst) as (Hf1 & evs1 & Ht1 & Hexit1).
  destruct (Hcleanup _ _ _ Hsecond) as (Hf2 & evs2 & Ht2 & Hexit2).
  assert (Hw : w' = w2) by (destruct r2; by injection Hrun as <- <-).
  subst w'. split; [eapply frame_trans; eauto|].
  exists (evs1 ++ evs2). split; [by rewrite Ht2, Ht1, app_assoc|].
  intros c ->. destruct r2 as [[]|e|c'].
  - injection Hrun as ->. destruct (Hexit1 c eq_refl).
  - discriminate.
  - destruct (Hexit2 c' eq_refl).
Qed.

Create HintDb obeys discriminated.

#[export] Hint Resolve never_rule status_1_rule : obeys.
#[export] Hint Resolve obeys_ret obeys_raise obeys_lift obeys_emit obeys_print
  obeys_print_err obeys_mkdir obeys_sleep obeys_urlopen obeys_path_exists
  obeys_read_text obeys_write_text obeys_unlink obeys_popen
  obeys_subprocess_run obeys_proc_kill obeys_create_connection obeys_ws_send
  obeys_ws_close obeys_ws_recv obeys_pending_frames : obeys.

(** Follow the structure of a piece of the script down to its calls. *)
Ltac obey_step :=
  lazymatch goal with
  | |- obeys _ _ (mbind _ _) => apply obeys_bind; [|intros ?]
  | |- obeys _ _ (try_except _ _) => apply obeys_try_except; [|intros ?]
  | |- obeys _ _ (if ?b then _ else _) => destruct b
  | |- obeys _ _ (match ?x with _ => _ end) => destruct x
  | |- obeys _ _ (let _ := _ in _) => cbv zeta
  end.

Ltac obey := repeat obey_step; try solve [eauto 3 with obeys].

Section SendObeys.
Context `{Host} {S : string -> Prop}.

Lemma obeys_loads {E} `{!ExitRule E} (text : string) : obeys S E (loads text).
Proof. apply obeys_lift. Qed.

Lemma obeys_cdp_recv_loop {E} `{!ExitRule E} (rounds ws : nat) :
  obeys S E (cdp_recv_loop rounds ws).
Proof.
  induction rounds; simpl; obey.
Qed.

Lemma obeys_cdp_send {E} `{!ExitRule E} (ws_url : pyval) (method : string)
    (params : pyval) :
  obeys S E (cdp_send ws_url method params).
Proof.
  apply obeys_never. unfold cdp_send.
  apply obeys_bind; [eauto with obeys|intros ws].
  apply obeys_try_finally; [|eauto with obeys].
  cbv zeta. obey. apply obeys_cdp_recv_loop.
Qed.

End SendObeys.

#[export] Hint Resolve obeys_loads obeys_cdp_send : obeys.

Section Helpers.
Context `{Host} {S : string -> Prop} {E : list event -> Z -> Prop}
  `{!ExitRule E}.
Hypothesis state_file_in : S STATE_FILE.
Hypothesis ext_id_file_in : S EXT_ID_FILE.

Lemma obeys_find_chrome : obeys S E find_chrome.
Proof.
  unfold find_chrome. induction CHROME_CANDIDATES; simpl; obey.
Qed.

Lemma obeys_cdp_http (endpoint : string) : obeys S E (cdp_http endpoint).
Proof. unfold cdp_http. obey. Qed.
Hint Resolve obeys_cdp_http : obeys.

Lemma obeys_get_browser_ws : obeys S E get_browser_ws.
Proof. unfold get_browser_ws. obey. Qed.
Hint Resolve obeys_get_browser_ws : obeys.

Lemma obeys_get_page_ws : obeys S E get_page_ws.
Proof. unfold get_page_ws. obey. Qed.
Hint Resolve obeys_get_page_ws : obeys.

Lemma obeys_get_all_targets : obeys S E get_all_targets.
Proof. unfold get_all_targets. obey. Qed.

Lemma obeys_save_state (pid : Z) : obeys S E (save_state pid).
Proof. unfold save_state. obey. Qed.

Lemma obeys_load_state : obeys S E load_state.
Proof. unfold load_state. obey. Qed.

Lemma obeys_get_ext_id : obeys S E get_ext_id.
Proof. unfold get_ext_id. obey. Qed.

Lemma obeys_scan_targets (targets : list pyval) :
  obeys S E (scan_targets targets).
Proof. induction targets; simpl; obey. Qed.
Hint Resolve obeys_scan_targets : obeys.

Lemma obeys_discover_ext_id : obeys S E discover_ext_id.
Proof. unfold discover_ext_id. obey. Qed.

Lemma obeys_or_else (a b : M pyval) :
  obeys S E a -> obeys S E b -> obeys S E (or_else a b).
Proof. intros Ha Hb. unfold or_else. obey. Qed.

End Helpers.

#[export] Hint Resolve obeys_find_chrome obeys_cdp_http obeys_get_browser_ws
  obeys_get_page_ws obeys_get_all_targets obeys_save_state obeys_load_state
  obeys_get_ext_id obeys_scan_targets obeys_discover_ext_id : obeys.

(** *** The commands *)

Lemma message_print (line : string) : message (EPrint line).
Proof. exists line. by left. Qed.

Lemma message_print_err (line : string) : message (EPrintErr line).
Proof. exists line. by right. Qed.

Lemma obeys_message_exit {A : Type} (S : string -> Prop) (e : event) :
  message e ->
  obeys S status_1_after_message (emit e;; sys_exit (A := A) 1).
Proof.
  intros Hmsg w r w' [= <- <-]. split; [by intros p _|].
  exists [e]. split; [reflexivity|]. intros c [= <-].
  split; [reflexivity|]. exists [], e, []. auto.
Qed.

Lemma obeys_print_kill_exit {A : Type} (S : string -> Prop) (line : string)
    (pid : Z) :
  obeys S status_1_after_message
    (print line;; proc_kill pid;; sys_exit (A := A) 1).
Proof.
  intros w r w' [= <- <-]. split; [by intros p _|].
  exists [EPrint line; EKill pid]. split; [simpl; by rewrite <- app_assoc|].
  intros c [= <-]. split; [reflexivity|].
  exists [], (EPrint line), [EKill pid].
  split; [reflexivity|]. split; [apply message_print|]. right. by exists pid.
Qed.

Ltac command_step :=
  lazymatch goal with
  | |- obeys _ _ (mbind (fun _ => sys_exit _) (print _)) =>
      apply obeys_message_exit, message_print
  | |- obeys _ _ (mbind (fun _ => sys_exit _) (print_err _)) =>
      apply obeys_message_exit, message_print_err
  | |- obeys _ _ (mbind (fun _ => mbind (fun _ => sys_exit _) (proc_kill _))
                    (print _)) =>
      apply obeys_print_kill_exit
  | _ => obey_step
  end.

Ltac command := repeat command_step; try solve [eauto 3 with obeys].

Section Commands.
Context `{Host} {S : string -> Prop}.
Hypothesis state_file_in : S STATE_FILE.
Hypothesis ext_id_file_in : S EXT_ID_FILE.

Local Abbreviation sound := (obeys S status_1_after_message).

Lemma sound_require_running : sound require_running.
Proof. unfold require_running. command. Qed.

Lemma sound_require_page : sound require_page.
Proof. unfold require_page. command. Qed.

Hint Resolve sound_require_running sound_require_page : obeys.

Lemma sound_start_poll (rounds : nat) (pid : Z) : sound (start_poll rounds pid).
Proof. induction rounds; simpl; command. Qed.

Lemma sound_cmd_start : sound cmd_start.
Proof.
  unfold cmd_start. command.
  - apply obeys_or_else; eauto with obeys.
  - apply sound_start_poll.
Qed.

Lemma sound_cmd_setup : sound cmd_setup.
Proof. unfold cmd_setup. command. Qed.

Lemma sound_cmd_stop : sound cmd_stop.
Proof. unfold cmd_stop. command. Qed.

Lemma sound_print_pages (pages : list pyval) :
  forall i, sound (print_pages i pages).
Proof. induction pages; intros i; simpl; command. Qed.

Lemma sound_cmd_status : sound cmd_status.
Proof.
  unfold cmd_status. command;
    try (apply obeys_or_else; eauto with obeys);
    apply sound_print_pages.
Qed.

Lemma sound_cmd_open (url : string) : sound (cmd_open url).
Proof. unfold cmd_open. command. Qed.

Lemma sound_cmd_js (expression : string) : sound (cmd_js expression).
Proof. unfold cmd_js. command. Qed.

Lemma sound_cmd_screenshot (filename : string) :
  S (path_resolve filename) -> sound (cmd_screenshot filename).
Proof. intros Hfile. unfold cmd_screenshot. command. Qed.

Lemma sound_cmd_click (selector : string) : sound (cmd_click selector).
Proof. unfold cmd_click. command. Qed.

Lemma sound_cmd_wait (seconds : option string) : sound (cmd_wait seconds).
Proof. unfold cmd_wait. command. Qed.

Lemma sound_check_exist (paths : list string) : sound (check_exist paths).
Proof. induction paths; simpl; command. Qed.

Lemma sound_cmd_push : sound cmd_push.
Proof. unfold cmd_push. command. apply sound_check_exist. Qed.

Lemma sound_cmd_import : sound cmd_import.
Proof.
  unfold cmd_import. command. apply obeys_or_else; eauto with obeys.
Qed.

End Commands.

(** ** The files the script writes *)

Section Files.
Context `{Host}.

(** The files a run with the arguments [argv] may write or delete: the
    state file, the extension-ID cache file, and for [screenshot] the
    file named on the command line. *)
Definition may_write (argv : list string) (path : string) : Prop :=
  path = STATE_FILE
  \/ path = EXT_ID_FILE
  \/ (argv !! 1%nat = Some "screenshot"
      /\ path = path_resolve (default "screenshot.png" (argv !! 2%nat))).

(** Whatever holds of the usage texts and of every command holds of
    [main]. *)
Lemma main_cases (P : M unit -> Prop) (argv : list string) :
  P (print __doc__) ->
  (forall name, P (print ("Unknown command: " +:+ name);; print __doc__;; sys_exit 1)) ->
  (forall name usage,
     P (print ("Usage: python browser.py " +:+ name +:+ " " +:+ usage);;
        sys_exit 1)) ->
  (argv !! 1%nat = Some "start" -> P cmd_start) ->
  P cmd_setup -> P cmd_stop -> P cmd_status ->
  (forall url, P (cmd_open url)) ->
  (forall expression, P (cmd_js expression)) ->
  (forall file,
     argv !! 1%nat = Some "screenshot" ->
     file = default "screenshot.png" (argv !! 2%nat) ->
     P (cmd_screenshot file)) ->
  (forall selector, P (cmd_click selector)) ->
  (forall seconds, P (cmd_wait seconds)) ->
  P cmd_push -> P cmd_import ->
  P (main argv).
Proof.
  intros Hdoc Hunknown Husage Hstart Hsetup Hstop Hstatus Hopen Hjs Hshot
    Hclick Hwait Hpush Himport.
  unfold main. cbv zeta.
  destruct ((length argv <? 2)%nat || _)%bool eqn:Hhelp; [exact Hdoc|].
  apply orb_false_elim in Hhelp as [Hlen _].
  apply Nat.ltb_ge in Hlen.
  destruct (argv !! 1%nat) as [name|] eqn:Hname.
  2:{ apply lookup_ge_None in Hname. lia. }
  simpl_default. unfold COMMANDS.
  repeat (rewrite lookup_command_cons;
          match goal with
          | |- context [String.eqb ?k name] =>
              destruct (String.eqb_spec k name) as [<-|_]
          end;
          [cbv beta iota; simpl Z.eqb; cbv iota;
           try (destruct (length argv <? 3)%nat; [apply Husage|]);
           try (destruct (2 <? length argv)%nat eqn:Hmore) |]).
  all: try (unfold no_args, one_arg, optional_arg; cbv beta iota;
            lazymatch goal with
            | |- _ cmd_start => apply Hstart; reflexivity
            | |- _ cmd_setup => exact Hsetup
            | |- _ cmd_stop => exact Hstop
            | |- _ cmd_status => exact Hstatus
            | |- _ (cmd_open _) => apply Hopen
            | |- _ (cmd_js _) => apply Hjs
            | |- _ (cmd_click _) => apply Hclick
            | |- _ (cmd_wait _) => apply Hwait
            | |- _ cmd_push => exact Hpush
            | |- _ cmd_import => exact Himport
            end).
  - (* screenshot <file> *)
    unfold optional_arg. cbv beta iota.
    apply Nat.ltb_lt in Hmore.
    destruct (argv !! 2%nat) as [file|] eqn:Hfile.
    2:{ apply lookup_ge_None in Hfile. lia. }
    simpl_default. by apply Hshot.
  - (* screenshot *)
    unfold optional_arg. cbv beta iota.
    apply Nat.ltb_ge in Hmore.
    assert (Hfile : argv !! 2%nat = None) by (apply lookup_ge_None; lia).
    apply Hshot; [reflexivity|]. by rewrite Hfile.
  - (* not a command *)
    simpl lookup_command. cbv iota. apply Hunknown.
Qed.

Lemma sound_main (argv : list string) :
  obeys (may_write argv) status_1_after_message (main argv).
Proof.
  assert (Hstate : may_write argv STATE_FILE) by (by left).
  assert (Hext : may_write argv EXT_ID_FILE) by (right; by left).
  apply (main_cases (obeys (may_write argv) status_1_after_message)); intros;
    try lazymatch goal with
        | |- obeys _ _ cmd_start => by apply sound_cmd_start
        | |- obeys _ _ cmd_setup => by apply sound_cmd_setup
        | |- obeys _ _ cmd_stop => by apply sound_cmd_stop
        | |- obeys _ _ cmd_status => by apply sound_cmd_status
        | |- obeys _ _ (cmd_open _) => by apply sound_cmd_open
        | |- obeys _ _ (cmd_js _) => by apply sound_cmd_js
        | |- obeys _ _ (cmd_click _) => by apply sound_cmd_click
        | |- obeys _ _ (cmd_wait _) => by apply sound_cmd_wait
        | |- obeys _ _ cmd_push => by apply sound_cmd_push
        | |- obeys _ _ cmd_import => by apply sound_cmd_import
        end.
  - eauto with obeys.
  - apply obeys_bind; [eauto with obeys|intros _].
    apply obeys_message_exit, message_print.
  - apply obeys_message_exit, message_print.
  - apply sound_cmd_screenshot; try assumption. right; right. by subst.
Qed.

(** C1, as the code has it: a run of the script writes or deletes no file
    other than the state file, the extension-ID cache file and, for the
    [screenshot] command, the screenshot file named on the command line. *)
Theorem main_writes_own_files (argv : list string) (w : World) r w' :
  main argv w = (r, w') ->
  forall path,
    path <> STATE_FILE -> path <> EXT_ID_FILE ->
    ~ (argv !! 1%nat = Some "screenshot"
       /\ path = path_resolve (default "screenshot.png" (argv !! 2%nat))) ->
    files w' !! path = files w !! path.
Proof.
  intros Hrun path Hstate Hext Hshot.
  destruct (sound_main argv _ _ _ Hrun) as [Hframe _].
  apply Hframe. unfold may_write. tauto.
Qed.

End Files.

(** ** Navigation *)

Section Open.
Context `{Host}.

(** The schemes [cmd_open] leaves alone. *)
Definition url_schemes : list string := ["http"; "chrome"; "about"; "file"].

(** The argument starts with one of the schemes. *)
Definition has_scheme (url : string) : Prop :=
  exists scheme rest, scheme ∈ url_schemes /\ url = scheme +:+ rest.

Lemma startswith_any_spec (s : string) (prefixes : list string) :
  startswith_any s prefixes = true
  <-> exists p rest, p ∈ prefixes /\ s = p +:+ rest.
Proof.
  unfold startswith_any. rewrite existsb_exists. split.
  - intros (p & Hin & Hp). apply prefix_spec in Hp as [rest ->].
    exists p, rest. split; [by apply list_elem_of_In | reflexivity].
  - intros (p & rest & Hin & ->). exists p.
    split; [by apply list_elem_of_In | apply prefix_spec; eauto].
Qed.

Lemma normalize_url_spec (url : string) :
  (has_scheme url -> normalize_url url = url)
  /\ (~ has_scheme url -> normalize_url url = "https://" +:+ url).
Proof.
  unfold normalize_url, has_scheme, url_schemes.
  destruct (startswith_any url ["http"; "chrome"; "about"; "file"]) eqn:Hsw.
  - split; [reflexivity|]. intros Hno. destruct Hno.
    by apply startswith_any_spec.
  - split; [|reflexivity]. intros Hyes.
    apply startswith_any_spec in Hyes. congruence.
Qed.

(** C9: [cmd_open] prepends [https://] to an argument that starts with
    none of 'http', 'chrome', 'about', 'file' and leaves any other
    argument as it is, and the [Page.navigate] command it sends carries
    that URL. *)
Theorem cmd_open_normalises (url : string) :
  (has_scheme url -> normalize_url url = url)
  /\ (~ has_scheme url -> normalize_url url = "https://" +:+ url)
  /\ (forall w w1 page w2,
        require_running w = (Ret tt, w1) ->
        require_page w1 = (Ret (PStr page), w2) ->
        peer_refuses (ws_oracle w2 (ws_count w2) page) = None ->
        exists r w' datas tail,
          cmd_open url w = (r, w')
          /\ trace w'
             = trace w2
               ++ session (ws_count w2) page
                    (json_dumps
                       (command "Page.navigate"
                          (PDict [("url", PStr (normalize_url url))])))
                    datas
               ++ tail).
Proof.
  destruct (normalize_url_spec url) as [Hkeep Hadd].
  split; [exact Hkeep|]. split; [exact Hadd|].
  intros w w1 page w2 Hrunning Hpage Hpeer.
  unfold cmd_open. rewrite (run_bind_ret _ _ _ _ _ Hrunning). cbv zeta.
  rewrite (run_bind_ret _ _ _ _ _ Hpage). rewrite run_bind.
  destruct (cdp_send (PStr page) "Page.navigate"
              (PDict [("url", PStr (normalize_url url))]) w2)
    as [r1 w3] eqn:Hsend.
  destruct (cdp_send_runs _ _ _ _ _ _ Hsend)
    as [(Hno & _)|[(u & e & [= <-] & Hrefused & _)|(u & datas & [= <-] & Hw3)]].
  { by destruct (Hno page). }
  { congruence. }
  assert (Htrace : trace w3
                   = trace w2
                     ++ session (ws_count w2) page
                          (json_dumps
                             (command "Page.navigate"
                                (PDict [("url", PStr (normalize_url url))])))
                          datas)
    by (rewrite Hw3; reflexivity).
  clear Hw3 Hsend.
  assert (Hstop : forall (r : outcome unit), exists r' w' datas' tail,
             (r, w3) = (r', w')
             /\ trace w'
                = trace w2
                  ++ session (ws_count w2) page
                       (json_dumps
                          (command "Page.navigate"
                             (PDict [("url", PStr (normalize_url url))])))
                       datas'
                  ++ tail).
  { intros r. exists r, w3, datas, []. by rewrite app_nil_r. }
  assert (Hprint : forall line, exists r' w' datas' tail,
             print line w3 = (r', w')
             /\ trace w'
                = trace w2
                  ++ session (ws_count w2) page
                       (json_dumps
                          (command "Page.navigate"
                             (PDict [("url", PStr (normalize_url url))])))
                       datas'
                  ++ tail).
  { intros line. exists (Ret tt), (logged w3 [EPrint line]), datas, [EPrint line].
    split; [reflexivity|].
    change (trace (logged w3 [EPrint line])) with (trace w3 ++ [EPrint line]).
    by rewrite Htrace, <- app_assoc. }
  destruct r1 as [resp|e|c]; cbv iota beta; [|apply Hstop..].
  rewrite run_bind.
  destruct (py_get resp "result" (PDict [])) as [result|e]; run; [|apply Hstop].
  destruct (py_get result "errorText" PNone) as [err|e]; run; [|apply Hstop].
  destruct (truthy err); apply Hprint.
Qed.

End Open.

(** ** Starting the browser *)

Section Startup.
Context `{Host}.

(** The URL [cdp_http] asks for. *)
Definition endpoint_url (endpoint : string) : string :=
  "http://localhost:" +:+ str_of_Z DEBUG_PORT +:+ endpoint.

(** The world after one more HTTP request. *)
Definition requested (w : World) (endpoint : string) : World :=
  with_http_count (S (http_count w)) (logged w [EHttpGet (endpoint_url endpoint)]).















(** *** No retry anywhere else *)











End Startup.

(** ** Failures *)

Section Failures.
Context `{Host}.

(** The commands that begin with [require_running]. *)
Inductive needs_running : M unit -> Prop :=
| needs_running_setup : needs_running cmd_setup
| needs_running_open url : needs_running (cmd_open url)
| needs_running_js expression : needs_running (cmd_js expression)
| needs_running_screenshot filename : needs_running (cmd_screenshot filename)
| needs_running_click selector : needs_running (cmd_click selector)
| needs_running_wait seconds : needs_running (cmd_wait seconds)
| needs_running_push : needs_running cmd_push
| needs_running_import : needs_running cmd_import.



























End Failures.

(** * Further properties of the script *)

(** ** Finding Chrome *)

Section FindChrome.
Context `{Host}.

(** A candidate [find_chrome] accepts: a non-empty path that names a
    file. *)
Definition usable (w : World) (path : string) : bool :=
  (negb (String.eqb path "") && bool_decide (is_Some (files w !! path)))%bool.

Lemma find_chrome_in_finds (candidates : list string) (w : World) :
  find_chrome_in candidates w
  = (match List.find (usable w) candidates with
     | Some path => Ret path
     | None => Raise FileNotFoundError
     end, w).
Proof.
  induction candidates as [|path rest IH]; [reflexivity|]. simpl.
  rewrite run_bind. unfold path_exists at 1. cbv beta iota.
  fold (usable w path). destruct (usable w path); [reflexivity | exact IH].
Qed.

Lemma usable_spec (w : World) (path : string) :
  usable w path = true <-> path <> "" /\ is_Some (files w !! path).
Proof.
  unfold usable. rewrite andb_true_iff, negb_true_iff, bool_decide_eq_true.
  destruct (String.eqb_spec path ""); split; intros [? ?]; split; congruence.
Qed.

(** X1: [find_chrome] only ever returns a non-empty candidate that names
    an existing file, and it changes nothing; the path of the
    [CHROME_BIN] environment variable wins whenever it names a file; and
    [FileNotFoundError] is raised when no candidate is usable, an unset
    (empty) [CHROME_BIN] being skipped. *)
Theorem find_chrome_first_usable (w : World) :
  (forall path w',
     find_chrome w = (Ret path, w') ->
     w' = w /\ path <> "" /\ is_Some (files w !! path)
     /\ path ∈ CHROME_CANDIDATES)
  /\ (CHROME_BIN <> "" -> is_Some (files w !! CHROME_BIN) ->
      find_chrome w = (Ret CHROME_BIN, w))
  /\ ((forall path,
         path ∈ CHROME_CANDIDATES -> path = "" \/ files w !! path = None) ->
      find_chrome w = (Raise FileNotFoundError, w)).
Proof.
  unfold find_chrome. rewrite find_chrome_in_finds. split; [|split].
  - intros path w'.
    destruct (List.find (usable w) CHROME_CANDIDATES) as [found|] eqn:Hfind;
      [|discriminate].
    intros [= <- <-]. apply find_some in Hfind as [Hin Husable].
    apply usable_spec in Husable as [Hne Hfile].
    repeat split; try assumption. by apply list_elem_of_In.
  - intros Hne Hfile. unfold CHROME_CANDIDATES. simpl.
    by rewrite (proj2 (usable_spec w CHROME_BIN) (conj Hne Hfile)).
  - intros Hnone.
    destruct (List.find (usable w) CHROME_CANDIDATES) as [found|] eqn:Hfind;
      [|reflexivity].
    apply find_some in Hfind as [Hin Husable].
    apply usable_spec in Husable as [Hne [content Hfile]].
    destruct (Hnone found) as [Hempty|Hmissing];
      [by apply list_elem_of_In | congruence | congruence].
Qed.

End FindChrome.

(** ** The HTTP endpoint *)

Section Endpoint.
Context `{Host}.


(** X3: what [get_browser_ws] makes of the version document: [None] when
    there is none, the [webSocketDebuggerUrl] entry when the document has
    one, and [KeyError] when a non-empty document lacks the entry, in
    which case every command that begins with [require_running] ends with
    that exception instead of the message that Chrome is not running. *)
Theorem get_browser_ws_of_version (w w1 : World) (info : pyval) :
  cdp_http "/json/version" w = (Ret info, w1) ->
  (truthy info = false -> get_browser_ws w = (Ret PNone, w1))
  /\ (forall kvs url,
        info = PDict kvs -> assoc "webSocketDebuggerUrl" kvs = Some url ->
        get_browser_ws w = (Ret url, w1))
  /\ (forall kvs,
        info = PDict kvs -> kvs <> [] ->
        assoc "webSocketDebuggerUrl" kvs = None ->
        get_browser_ws w = (Raise KeyError, w1)
        /\ forall cmd, needs_running cmd -> cmd w = (Raise KeyError, w1)).
Proof.
  intros Hhttp. unfold get_browser_ws.
  rewrite (run_bind_ret _ _ _ _ _ Hhttp). split; [|split].
  - intros ->. reflexivity.
  - intros kvs url -> Hurl. destruct kvs as [|kv kvs]; [discriminate|].
    cbn [truthy]. unfold py_index. rewrite Hurl. reflexivity.
  - intros kvs -> Hne Hmissing.
    assert (Hraise : (if truthy (PDict kvs)
                      then lift (py_index (PDict kvs) "webSocketDebuggerUrl")
                      else mret PNone) w1 = (Raise KeyError, w1)).
    { destruct kvs as [|kv kvs]; [congruence|].
      cbn [truthy]. unfold py_index. rewrite Hmissing. reflexivity. }
    split; [exact Hraise|].
    assert (Hws : get_browser_ws w = (Raise KeyError, w1)).
    { unfold get_browser_ws. by rewrite (run_bind_ret _ _ _ _ _ Hhttp). }
    assert (Hrequire : require_running w = (Raise KeyError, w1)).
    { unfold require_running. by rewrite (run_bind_raise _ _ _ _ _ Hws). }
    intros cmd Hcmd. destruct Hcmd; by apply run_bind_raise.
Qed.

End Endpoint.

(** ** The saved state *)

Section SavedState.
Context `{Host}.

(** The state [save_state] writes for [pid]. *)
Definition state_of (pid : Z) : pyval :=
  PDict [("pid", PInt pid); ("port", PInt DEBUG_PORT)].

Lemma save_state_writes (pid : Z) (w : World) :
  save_state pid w
  = (Ret tt,
     with_files (<[STATE_FILE := json_dumps (state_of pid)]> (files w))
       (logged w [EMkdir STATE_DIR;
                  EWrite STATE_FILE (json_dumps (state_of pid))])).
Proof.
  unfold save_state. rewrite run_bind_mkdir. unfold write_text, state_of.
  f_equal. world_eq.
Qed.

(** X4: what [save_state] writes, [load_state] reads back: when the JSON
    library reads its own output for the state, loading after saving
    gives the pid that was saved and the debug port, and changes
    nothing. *)
Theorem save_state_load_state (pid : Z) (w : World) :
  json_loads (json_dumps (state_of pid)) = Ok (state_of pid) ->
  exists w1,
    save_state pid w = (Ret tt, w1)
    /\ load_state w1 = (Ret (state_of pid), w1)
    /\ py_get (state_of pid) "pid" PNone = Ok (PInt pid)
    /\ well_formed_state (state_of pid).
Proof.
  intros Hjson. eexists. split; [apply save_state_writes|].
  split; [|split; [reflexivity | by exists pid, DEBUG_PORT]].
  rewrite (load_state_present _ (json_dumps (state_of pid)))
    by (simpl; apply lookup_insert_eq).
  by rewrite Hjson.
Qed.

(** X5: [stop] after [start]: the process [cmd_stop] asks [taskkill] to
    end is the one whose pid [save_state] saved, and the state file that
    [save_state] wrote is gone afterwards. *)
Theorem save_state_then_cmd_stop (pid : Z) (w : World) :
  json_loads (json_dumps (state_of pid)) = Ok (state_of pid) ->
  pid <> 0 ->
  exists w' line,
    (save_state pid;; cmd_stop) w = (Ret tt, w')
    /\ trace w'
       = trace w
         ++ [ EMkdir STATE_DIR;
              EWrite STATE_FILE (json_dumps (state_of pid));
              ERun ["taskkill"; "/pid"; str_of_Z pid; "/f"; "/t"];
              EPrint line;
              EUnlink STATE_FILE ]
    /\ files w' !! STATE_FILE = None.
Proof.
  intros Hjson Hpid.
  rewrite (run_bind_ret _ _ _ _ _ (save_state_writes pid w)).
  rewrite (cmd_stop_runs _ (json_dumps (state_of pid)) pid DEBUG_PORT)
    by (try exact Hjson; simpl; apply lookup_insert_eq).
  unfold stop_events. destruct (Z.eqb_spec pid 0) as [|_]; [contradiction|].
  eexists _, _. split; [reflexivity|]. split.
  - simpl. rewrite <- app_assoc. reflexivity.
  - simpl. apply lookup_delete_eq.
Qed.

End SavedState.

(** ** Stopping, the unusual cases *)

Section StopEdges.
Context `{Host}.

(** X6: [cmd_stop] on a state file that [save_state] did not write.  A
    falsy document (null, an empty object, zero) counts as no saved state
    and the file stays; text that is not JSON, or a document that is true
    but not an object, makes [cmd_stop] raise, and the file stays; an
    object without a true pid is deleted without a call of [taskkill]. *)
Theorem cmd_stop_edge_cases (w : World) (text : string) :
  files w !! STATE_FILE = Some text ->
  (forall state,
     json_loads text = Ok state -> truthy state = false ->
     cmd_stop w = (Ret tt, logged w [EPrint "No saved state. Nothing to stop."]))
  /\ (forall e, json_loads text = Err e -> cmd_stop w = (Raise e, w))
  /\ (forall state,
        json_loads text = Ok state -> truthy state = true ->
        (forall kvs, state <> PDict kvs) ->
        cmd_stop w = (Raise AttributeError, w))
  /\ (forall kvs,
        json_loads text = Ok (PDict kvs) -> kvs <> [] ->
        truthy (default PNone (assoc "pid" kvs)) = false ->
        cmd_stop w
        = (Ret tt,
           with_files (delete STATE_FILE (files w))
             (logged w [EUnlink STATE_FILE]))).
Proof.
  intros Hfile. split; [|split; [|split]].
  - intros state Hjson Hfalsy. unfold cmd_stop.
    rewrite run_bind, (load_state_present _ _ Hfile), Hjson. run.
    by rewrite Hfalsy.
  - intros e Hjson. unfold cmd_stop.
    by rewrite run_bind, (load_state_present _ _ Hfile), Hjson.
  - intros state Hjson Htruthy Hshape. unfold cmd_stop.
    rewrite run_bind, (load_state_present _ _ Hfile), Hjson. run.
    rewrite Htruthy. cbn [negb].
    destruct state; try reflexivity. by destruct (Hshape kvs).
  - intros kvs Hjson Hne Hpid. unfold cmd_stop.
    rewrite run_bind, (load_state_present _ _ Hfile), Hjson. run.
    destruct kvs as [|kv kvs]; [congruence|]. cbn [truthy negb].
    unfold py_get. run. rewrite Hpid. run. reflexivity.
Qed.

End StopEdges.

(** ** Discovery of the extension *)

Section Discovery.
Context `{Host}.



(** A [try] block that never exits and whose handler returns. *)
Lemma try_except_returns {A : Type} (body : M (option A)) (w : World) :
  obeys (fun _ => True) never body ->
  exists found w', try_except body (fun _ => mret None) w = (Ret found, w').
Proof.
  intros Hbody. unfold try_except.
  destruct (body w) as [[found|e|c] w1] eqn:Hrun; [eauto | eauto |].
  destruct (Hbody _ _ _ Hrun) as (_ & evs & _ & Hexit).
  destruct (Hexit c eq_refl).
Qed.

(** X8: once the debug endpoint has answered, [discover_ext_id] returns:
    whatever goes wrong while it talks to the browser is swallowed, and
    the result is [None] or a string. *)
Theorem discover_ext_id_never_raises (w : World) (ws : pyval) (w1 : World) :
  get_browser_ws w = (Ret ws, w1) ->
  exists v w',
    discover_ext_id w = (Ret v, w') /\ (v = PNone \/ exists id, v = PStr id).
Proof.
  intros Hws. unfold discover_ext_id.
  rewrite (run_bind_ret _ _ _ _ _ Hws).
  destruct (negb (truthy ws)); [by exists PNone, w1; split; [|left]|].
  match goal with
  | |- context [try_except ?body ?handler ≫= _] =>
      destruct (try_except_returns body w1) as (found & w2 & Hfirst)
  end.
  { obey. }
  rewrite (run_bind_ret _ _ _ _ _ Hfirst).
  destruct found as [id|]; [exists (PStr id), w2; split; [reflexivity | eauto]|].
  match goal with
  | |- context [try_except ?body ?handler ≫= _] =>
      destruct (try_except_returns body w2) as (found & w3 & Hsecond)
  end.
  { obey. }
  rewrite (run_bind_ret _ _ _ _ _ Hsecond).
  destruct found as [id|];
    [exists (PStr id), w3 | exists PNone, w3]; split; eauto.
Qed.

End Discovery.

(** ** The scan for the extension *)

Section Scan.
Context `{Host}.

(** The character occurs in the string. *)
Fixpoint has_char (c : ascii) (s : string) : bool :=
  match s with
  | EmptyString => false
  | String d rest => (Ascii.eqb d c || has_char c rest)%bool
  end.

(** The URL of a resource of the extension [id]. *)
Definition extension_url (id rest : string) : string :=
  "chrome-extension://" +:+ id +:+ "/" +:+ rest.

Lemma append_nil_r (s : string) : s +:+ "" = s.
Proof. induction s as [|c s IH]; [reflexivity|]. by rewrite append_cons, IH. Qed.

Lemma str_split_cons (sep : ascii) (s : string) :
  exists hd tl, str_split sep s = hd :: tl.
Proof.
  induction s as [|c s (hd & tl & IH)]; simpl; [eauto|].
  destruct (Ascii.eqb c sep); [eauto|]. rewrite IH. eauto.
Qed.

Lemma str_split_sep (sep : ascii) (s : string) :
  str_split sep (String sep s) = "" :: str_split sep s.
Proof. simpl. by rewrite Ascii.eqb_refl. Qed.

(** A piece without the separator stays in front of the first part. *)
Lemma str_split_app (sep : ascii) (p s : string) :
  has_char sep p = false ->
  str_split sep (p +:+ s)
  = match str_split sep s with
    | hd :: tl => (p +:+ hd) :: tl
    | [] => [p]
    end.
Proof.
  induction p as [|c p IH]; intros Hp.
  - change ("" +:+ s) with s.
    destruct (str_split_cons sep s) as (hd & tl & ->). reflexivity.
  - simpl in Hp. apply orb_false_elim in Hp as [Hc Hp].
    rewrite append_cons. simpl. rewrite Hc, (IH Hp).
    destruct (str_split_cons sep s) as (hd & tl & ->). reflexivity.
Qed.

(** [url.split("/")[2]] is the ID of the extension. *)
Lemma ext_id_of_extension_url (id rest : string) :
  has_char "/" id = false ->
  list_index (str_split "/" (extension_url id rest)) 2 = Ok id.
Proof.
  intros Hid.
  change (extension_url id rest)
    with ("chrome-extension:" +:+ String "/" (String "/" (id +:+ String "/" rest))).
  rewrite str_split_app by reflexivity.
  rewrite !str_split_sep, (str_split_app "/" id) by exact Hid.
  rewrite str_split_sep. unfold list_index. simpl. by rewrite append_nil_r.
Qed.

(** A target the scan passes over: one that is no extension, or a
    built-in extension. *)
Definition skipped_target (t : pyval) : Prop :=
  exists kvs url,
    t = PDict kvs
    /\ default (PStr "") (assoc "url" kvs) = PStr url
    /\ (String.prefix "chrome-extension://" url = false
        \/ exists id rest,
            url = extension_url id rest /\ has_char "/" id = false
            /\ id ∈ BUILTIN_EXT_IDS).

(** X9: the scan of [discover_ext_id] passes over the targets that are no
    extensions and over Chrome's built-in extensions, and at the first
    other extension it writes that extension's ID to the cache file and
    returns it, whatever targets come later. *)
Theorem scan_targets_finds_first (skipped later : list pyval)
    (kvs : list (string * pyval)) (id rest : string) (w : World) :
  Forall skipped_target skipped ->
  default (PStr "") (assoc "url" kvs) = PStr (extension_url id rest) ->
  has_char "/" id = false ->
  id ∉ BUILTIN_EXT_IDS ->
  scan_targets (skipped ++ PDict kvs :: later) w
  = (Ret (Some id),
     with_files (<[EXT_ID_FILE := id]> (files w))
       (logged w [EMkdir STATE_DIR; EWrite EXT_ID_FILE id])).
Proof.
  intros Hskipped Hurl Hid Hnew.
  assert (Hprefix : String.prefix "chrome-extension://" (extension_url id rest) = true)
    by (apply prefix_spec; eexists; reflexivity).
  induction Hskipped as [|t ts (kvs' & url & -> & Hurl' & Hwhy) _ IH].
  - simpl app. cbn [scan_targets]. unfold py_get. run. rewrite Hurl.
    cbv iota beta. rewrite Hprefix, (ext_id_of_extension_url _ _ Hid). run.
    rewrite (bool_decide_eq_true_2 _ Hnew).
    rewrite run_bind_mkdir. unfold write_text. run. f_equal. world_eq.
  - simpl app. cbn [scan_targets]. unfold py_get. run. rewrite Hurl'.
    cbv iota beta.
    destruct Hwhy as [->|(id' & rest' & -> & Hid' & Hbuiltin)]; [exact IH|].
    assert (Hprefix' : String.prefix "chrome-extension://" (extension_url id' rest') = true)
      by (apply prefix_spec; eexists; reflexivity).
    rewrite Hprefix', (ext_id_of_extension_url _ _ Hid'). run.
    rewrite bool_decide_eq_false_2 by (intros Hno; by apply Hno).
    exact IH.
Qed.

End Scan.

(** ** What [cdp_send] returns *)

Section Response.
Context `{Host}.

Lemma recv_loop_returns (rounds ws : nat) (w : World) resp w' :
  cdp_recv_loop rounds ws w = (Ret resp, w') ->
  exists datas text id,
    json_loads text = Ok resp /\ py_get resp "id" PNone = Ok id
    /\ py_eq_int id 1 = true /\ last datas = Some text
    /\ trace w' = trace w ++ map (EWsRecv ws) datas.
Proof.
  revert w. induction rounds as [|rounds IH]; intros w; simpl; [discriminate|].
  intros Hrun. returns Hrun.
  assert (Hrecv : trace w0 = trace w ++ [EWsRecv ws a]).
  { unfold ws_recv in Hstep. destruct (ws_open w !! ws) as [peer|]; [|discriminate].
    destruct (peer_frames peer) as [|[data|e] more]; try discriminate.
    by injection Hstep as <- <-. }
  returns Hrun. returns Hrun.
  assert (Hloads : json_loads a = Ok a0 /\ w1 = w0).
  { unfold loads in Hstep0. destruct (json_loads a); [|discriminate].
    by injection Hstep0 as <- <-. }
  destruct Hloads as [Hloads ->].
  assert (Hid : py_get a0 "id" PNone = Ok a1 /\ w2 = w0).
  { destruct (py_get a0 "id" PNone); [|discriminate].
    by injection Hstep1 as <- <-. }
  destruct Hid as [Hid ->].
  destruct (py_eq_int a1 1) eqn:Hone.
  - rewrite run_ret in Hrun. injection Hrun as <- <-.
    exists [a], a, a1. by repeat split.
  - destruct (IH _ Hrun) as (datas & text & id & ? & ? & ? & Hlast & Htrace).
    exists (a :: datas), text, id. repeat split; try assumption.
    + destruct datas; [discriminate | exact Hlast].
    + rewrite Htrace, Hrecv, <- app_assoc. reflexivity.
Qed.

(** X10: what [cdp_send] returns is always the response: a message it
    has just received on its own connection, the last one it read, whose
    [id] equals 1.  And when the peer accepts the command and then stays
    silent, [cdp_send] raises the timeout of [recv] after closing the
    connection. *)
Theorem cdp_send_returns_response (ws_url : pyval) (method : string)
    (params : pyval) (w : World) :
  (forall resp w',
     cdp_send ws_url method params w = (Ret resp, w') ->
     exists url datas text id,
       ws_url = PStr url
       /\ json_loads text = Ok resp /\ py_get resp "id" PNone = Ok id
       /\ py_eq_int id 1 = true /\ last datas = Some text
       /\ trace w'
          = trace w
            ++ session (ws_count w) url (json_dumps (command method params))
                 datas)
  /\ (forall url,
        ws_url = PStr url ->
        peer_refuses (ws_oracle w (ws_count w) url) = None ->
        peer_send_fails (ws_oracle w (ws_count w) url) = None ->
        peer_frames (ws_oracle w (ws_count w) url) = [] ->
        cdp_send ws_url method params w
        = (Raise WebSocketTimeoutException,
           with_ws (S (ws_count w)) (delete (ws_count w) (ws_open w))
             (logged w (session (ws_count w) url
                          (json_dumps (command method params)) [])))).
Proof.
  split.
  - intros resp w' Hrun. unfold cdp_send in Hrun. returns Hrun.
    destruct ws_url as [| | | |url| |]; try discriminate.
    unfold create_connection in Hstep.
    destruct (peer_refuses (ws_oracle w (ws_count w) url)); [discriminate|].
    injection Hstep as <- <-.
    unfold try_finally in Hrun. cbv zeta in Hrun.
    rewrite cdp_send_command in Hrun.
    match type of Hrun with
    | context [let (_, _) := ?body ?w1 in _] =>
        destruct (body w1) as [r1 w2] eqn:Hbody
    end.
    unfold ws_close in Hrun. injection Hrun as -> <-.
    apply run_bind_returns in Hbody as (sent & wa & Hsend & Hbody).
    assert (Hsent : trace wa = (trace w ++ [EWsConnect url])
                               ++ [EWsSend (ws_count w)
                                     (json_dumps (command method params))]).
    { unfold ws_send in Hsend. cbn [ws_open with_ws] in Hsend.
      rewrite lookup_insert_eq in Hsend.
      destruct (peer_send_fails _); [discriminate|].
      by injection Hsend as <- <-. }
    apply run_bind_returns in Hbody as (n & wb & Hpending & Hbody).
    assert (Hsame : wb = wa) by (by injection Hpending as <- <-). subst wb.
    destruct (recv_loop_returns _ _ _ _ _ Hbody)
      as (datas & text & id & Hloads & Hid & Hone & Hlast & Htrace).
    exists url, datas, text, id. repeat split; try assumption.
    cbn [trace with_ws with_trace]. rewrite Htrace, Hsent. unfold session.
    rewrite <- !app_assoc. reflexivity.
  - intros url -> Hopen Hsend Hframes.
    unfold cdp_send. rewrite run_bind. unfold create_connection at 1.
    rewrite Hopen. unfold try_finally. cbv zeta. rewrite cdp_send_command.
    rewrite run_bind. unfold ws_send at 1. cbn [ws_open with_ws].
    rewrite lookup_insert_eq, Hsend.
    rewrite run_bind. unfold pending_frames at 1. cbn [ws_open with_ws with_trace].
    rewrite lookup_insert_eq, Hframes. cbn [length cdp_recv_loop].
    rewrite run_bind. unfold ws_recv at 1. cbn [ws_open with_ws with_trace].
    rewrite lookup_insert_eq, Hframes.
    unfold ws_close. f_equal. cbn [ws_open with_ws with_trace ws_count].
    rewrite delete_insert_eq. unfold session. world_eq.
Qed.

End Response.

(** ** Arguments the dispatcher drops *)

Section Surplus.
Context `{Host}.

(** X11: the dispatcher drops surplus arguments.  A command declared
    without arguments runs the same whatever follows its name, and a
    command with an optional argument ([screenshot], [wait]) takes the
    first argument after its name and ignores the rest; it does not join
    them as the one-argument commands do. *)
Theorem main_drops_surplus_arguments (argv : list string) :
  (argv !! 1%nat = Some "start" -> main argv = cmd_start)
  /\ (argv !! 1%nat = Some "setup" -> main argv = cmd_setup)
  /\ (argv !! 1%nat = Some "stop" -> main argv = cmd_stop)
  /\ (argv !! 1%nat = Some "status" -> main argv = cmd_status)
  /\ (argv !! 1%nat = Some "push" -> main argv = cmd_push)
  /\ (argv !! 1%nat = Some "import" -> main argv = cmd_import)
  /\ (argv !! 1%nat = Some "screenshot" ->
      main argv = cmd_screenshot (default "screenshot.png" (argv !! 2%nat)))
  /\ (argv !! 1%nat = Some "wait" -> main argv = cmd_wait (argv !! 2%nat)).
Proof.
  repeat split; intros Hname;
    rewrite (main_runs argv _ _ _ _ Hname eq_refl);
    try reflexivity; cbn [Z.eqb]; cbv iota; apply optional_arg_call.
Qed.

End Surplus.

(** ** Waiting *)

Section Wait.
Context `{Host}.







End Wait.

(** ** Screenshots *)

Section Screenshot.
Context `{Host}.

(** X13: [cmd_screenshot] once the browser has answered the capture
    command.  With decodable data it creates the directory of the target,
    writes the decoded bytes to the resolved path and to no other file,
    and names the path; with data that does not decode it raises after
    the directory was created, and no file has been written. *)
Theorem cmd_screenshot_writes (filename : string) (w w1 : World)
    (page : pyval) (w2 : World) (resp : pyval) (w3 : World)
    (result : pyval) (data : string) :
  require_running w = (Ret tt, w1) ->
  require_page w1 = (Ret page, w2) ->
  cdp_send page "Page.captureScreenshot" (PDict [("format", PStr "png")]) w2
  = (Ret resp, w3) ->
  py_get resp "result" (PDict []) = Ok result ->
  py_get result "data" (PStr "") = Ok (PStr data) ->
  data <> "" ->
  let path := path_resolve filename in
  (forall bytes,
     b64decode data = Some bytes ->
     cmd_screenshot filename w
     = (Ret tt,
        with_files (<[path := bytes]> (files w3))
          (logged w3 [ EMkdir (path_parent path);
                       EWrite path bytes;
                       EPrint ("Screenshot saved: " +:+ path) ])))
  /\ (b64decode data = None ->
      cmd_screenshot filename w
      = (Raise ValueError, logged w3 [EMkdir (path_parent path)])).
Proof.
  intros Hrunning Hpage Hsend Hresult Hdata Hne path.
  assert (Htruthy : truthy (PStr data) = true).
  { simpl. by destruct (String.eqb_spec data ""). }
  unfold cmd_screenshot.
  rewrite !(run_bind_ret _ _ _ _ _ Hrunning), !(run_bind_ret _ _ _ _ _ Hpage),
    !(run_bind_ret _ _ _ _ _ Hsend).
  rewrite Hresult. run. rewrite Hdata. run. rewrite Htruthy. cbv zeta.
  fold path. rewrite !run_bind_mkdir. split.
  - intros bytes ->. run. unfold write_text. run.
    rewrite run_print. f_equal. world_eq.
  - intros ->. run. reflexivity.
Qed.

End Screenshot.

(** ** Importing preferences *)

Section Preferences.
Context `{Host}.

(** The preferences file of [cmd_import]. *)
Definition prefs_file : string :=
  path_join SETTINGS_DIR "reader-view-preferences.json".

(** X14: [cmd_import] does not guard the preferences file the way
    [cmd_push] guards its JSON: text that is not JSON makes it raise the
    error of [json.loads], and a document that has no length (a number,
    true) makes it raise [TypeError]; either way it stops before it prints
    anything or touches the page. *)
Theorem cmd_import_unguarded (w w1 : World) (ext_id : pyval) (w2 : World)
    (text : string) :
  require_running w = (Ret tt, w1) ->
  or_else get_ext_id discover_ext_id w1 = (Ret ext_id, w2) ->
  truthy ext_id = true ->
  files w2 !! prefs_file = Some text ->
  (forall e, json_loads text = Err e -> cmd_import w = (Raise e, w2))
  /\ (forall prefs,
        json_loads text = Ok prefs -> py_len prefs = Err TypeError ->
        cmd_import w = (Raise TypeError, w2)).
Proof.
  intros Hrunning Hid Htruthy Hfile. unfold cmd_import.
  rewrite !(run_bind_ret _ _ _ _ _ Hrunning), !(run_bind_ret _ _ _ _ _ Hid),
    Htruthy.
  cbn [negb]. cbv zeta. fold prefs_file.
  rewrite !run_bind. unfold path_exists at 1 2. rewrite Hfile.
  rewrite bool_decide_eq_true_2 by eauto. cbn [negb]. cbv beta iota.
  rewrite !run_bind. unfold read_text at 1 2. rewrite Hfile. cbv beta iota.
  unfold loads. split.
  - intros e ->. reflexivity.
  - intros prefs -> Hlen. run. rewrite Hlen. reflexivity.
Qed.

End Preferences.

(** ** The active page *)

Section ActivePage.
Context `{Host}.

(** X15: the page that [status] lists first (and marks with a star) is
    the page the other commands act on: for targets that are objects, the
    list comprehension of [cmd_status] yields the page targets in order,
    and [get_page_ws] picks the debugger URL of the first of them. *)
Theorem first_listed_page_is_active (targets : list pyval) :
  Forall is_dict targets ->
  filter_pages targets = Ok (List.filter is_page_target targets)
  /\ first_page targets
     = Ok (match List.filter is_page_target targets with
           | page :: _ => dict_field "webSocketDebuggerUrl" page
           | [] => PNone
           end).
Proof.
  induction 1 as [|t rest [kvs ->] _ [IHfilter IHfirst]]; [by split|].
  cbn [filter_pages first_page List.filter]. rewrite IHfilter, IHfirst.
  change (py_get (PDict kvs) "type" PNone)
    with (Ok (default PNone (assoc "type" kvs))).
  cbv iota beta.
  change (py_eq_str (default PNone (assoc "type" kvs)) "page")
    with (is_page_target (PDict kvs)).
  destruct (is_page_target (PDict kvs)); split; reflexivity.
Qed.

End ActivePage.

(** ** Normalised URLs *)

Section Normalised.
Context `{Host}.

(** X16: the URL [cmd_open] navigates to always starts with one of the
    schemes, so normalising twice is normalising once. *)
Theorem normalize_url_idempotent (url : string) :
  has_scheme (normalize_url url)
  /\ normalize_url (normalize_url url) = normalize_url url.
Proof.
  assert (Hscheme : has_scheme (normalize_url url)).
  { destruct (normalize_url_spec url) as [Hkeep Hadd].
    unfold normalize_url.
    destruct (startswith_any url ["http"; "chrome"; "about"; "file"]) eqn:Hsw;
      cbn [negb].
    - by apply startswith_any_spec.
    - exists "http", ("s://" +:+ url). split; [|reflexivity].
      unfold url_schemes. apply elem_of_cons. by left. }
  split; [exact Hscheme|]. by apply normalize_url_spec.
Qed.

End Normalised.

(** ** The cached extension ID *)

Section Cache.
Context `{Host}.







End Cache.

(** ** Starting twice *)

Section StartAgain.
Context `{Host}.







End StartAgain.

(** ** The status report *)

Section Status.
Context `{Host}.




End Status.

(** ** The store page *)

Section Setup.
Context `{Host}.

(** X20: [cmd_setup] navigates the active page to the store page of the
    extension whose ID the discovery falls back on, and does not look at
    the answer: whatever the browser responds, a navigation error
    included, it reports the page as opened and returns normally. *)
Theorem cmd_setup_ignores_response (w w1 : World) (page : pyval)
    (w2 : World) (resp : pyval) (w3 : World) :
  require_running w = (Ret tt, w1) ->
  require_page w1 = (Ret page, w2) ->
  cdp_send page "Page.navigate"
    (PDict [("url", PStr ("https://chromewebstore.google.com/detail/reader-view/"
                          +:+ CWS_EXT_ID))]) w2
  = (Ret resp, w3) ->
  cmd_setup w
  = (Ret tt,
     logged w3
       [ EPrint "Opened Chrome Web Store: Reader View";
         EPrint "Click 'Add to Chrome' to install, then run: python browser.py status" ]).
Proof.
  intros Hrunning Hpage Hsend. unfold cmd_setup.
  rewrite (run_bind_ret _ _ _ _ _ Hrunning).
  rewrite (run_bind_ret _ _ _ _ _ Hpage).
  change CWS_URL
    with ("https://chromewebstore.google.com/detail/reader-view/" +:+ CWS_EXT_ID).
  rewrite (run_bind_ret _ _ _ _ _ Hsend).
  rewrite run_bind, run_print. cbv beta iota.
  rewrite run_print, logged_logged. reflexivity.
Qed.

End Setup.

(** ** Pushing the settings *)

Section Push.
Context `{Host}.


End Push.

(** * The script at work

    Runs of the script on the concrete host and worlds of [Demo]. *)

#[local] Existing Instance Demo.host.

(** The dispatcher on four command lines. *)
Lemma main_dispatches_witness :
  (forall w, @main Demo.host ["browser.py"] w
             = (Ret tt, logged w [EPrint __doc__]))
  /\ (forall w, @main Demo.host ["browser.py"; "frobnicate"] w
                = (Exit 1, logged w [EPrint "Unknown command: frobnicate";
                                     EPrint __doc__]))
  /\ (forall w, @main Demo.host ["browser.py"; "click"] w
                = (Exit 1, logged w [EPrint "Usage: python browser.py click <selector>"]))
  /\ @main Demo.host ["browser.py"; "open"; "example.com"; "now"]
     = @cmd_open Demo.host "example.com now"
  /\ @main Demo.host ["browser.py"; "status"; "now"] = @cmd_status Demo.host
  /\ @main Demo.host ["browser.py"; "push"] = @cmd_push Demo.host
  /\ @main Demo.host ["browser.py"; "wait"] = @cmd_wait Demo.host None
  /\ @main Demo.host ["browser.py"; "screenshot"; "a.png"; "b.png"]
     = @cmd_screenshot Demo.host "a.png"
  /\ @main Demo.host ["browser.py"; "screenshot"; "a.png"; "b.png"]
     = optional_arg (fun f => @cmd_screenshot Demo.host (default "screenshot.png" f))
         ["a.png"].
Proof.
  split; [|split; [|split; [|split; [|split; [|split; [|split; [|split]]]]]]].
  - apply (@main_dispatches Demo.host ["browser.py"]). left. simpl. lia.
  - apply (proj1 (proj2 (@main_dispatches Demo.host ["browser.py"; "frobnicate"]))).
    + reflexivity.
    + unfold help_flags. rewrite !elem_of_cons, elem_of_nil.
      intros [E|[E|[E|[]]]]; discriminate E.
    + apply (proj1 (proj2 (proj2 (proj2 (proj2
               (@main_dispatches Demo.host ["browser.py"; "frobnicate"])))))).
      unfold command_names. rewrite !elem_of_cons, elem_of_nil.
      intros E. repeat (destruct E as [E|E]; [discriminate E|]). destruct E.
  - intros w.
    destruct (proj1 (proj2 (proj2 (@main_dispatches Demo.host ["browser.py"; "click"])))
                "click" (one_arg cmd_click) "<selector>" eq_refl eq_refl)
      as [Hmissing _].
    apply Hmissing. simpl. lia.
  - apply (proj1 (proj2 (proj2 (proj2 (@main_dispatches Demo.host
                                  ["browser.py"; "open"; "example.com"; "now"]))))
             "example.com now").
    + simpl. lia.
    + reflexivity.
    + reflexivity.
  - apply (proj2 (proj2 (proj2 (proj2 (proj2 (proj2
             (@main_dispatches Demo.host ["browser.py"; "status"; "now"]))))))).
    reflexivity.
  - apply (proj2 (proj2 (proj2 (proj2 (proj2 (proj2
             (@main_dispatches Demo.host ["browser.py"; "push"]))))))).
    reflexivity.
  - apply (proj2 (proj2 (proj2 (proj2 (proj2 (proj2
             (@main_dispatches Demo.host ["browser.py"; "wait"]))))))).
    reflexivity.
  - apply (proj2 (proj2 (proj2 (proj2 (proj2 (proj2
             (@main_dispatches Demo.host
                ["browser.py"; "screenshot"; "a.png"; "b.png"]))))))).
    reflexivity.
  - apply (proj1 (proj2 (proj2 (proj2 (proj2 (proj2
             (@main_dispatches Demo.host
                ["browser.py"; "screenshot"; "a.png"; "b.png"]))))))
             "screenshot" _ "[filename]" eq_refl).
    reflexivity.
Defined.

(** A Chrome with a page, and one without. *)
Lemma get_page_ws_first_page_witness :
  let w := Demo.world ∅ Demo.http_up [] in
  let bare := Demo.world ∅ Demo.http_no_page [] in
  get_page_ws w = (Ret (PStr Demo.page_url), snd (cdp_http "/json" w))
  /\ require_page bare
     = (Exit 1, logged (snd (get_page_ws bare)) [EPrint "No active page found."]).
Proof.
  intros w bare. split.
  - apply (proj1 get_page_ws_first_page w Demo.targets).
    + vm_compute. reflexivity.
    + repeat constructor; eexists; reflexivity.
  - apply (proj2 get_page_ws_first_page bare PNone).
    + vm_compute. reflexivity.
    + reflexivity.
Defined.

(** The response comes third, after an event and the response to another
    command. *)
Lemma cdp_send_correlates_witness :
  let w := Demo.world ∅ Demo.http_up
             [Demo.peer_of [Demo.event_doc; Demo.other_reply_doc;
                            Demo.navigate_ok_doc; Demo.event_doc]] in
  let params := PDict [("url", PStr "about:blank")] in
  let texts := map (Demo.dumps 8)
                 [Demo.event_doc; Demo.other_reply_doc; Demo.navigate_ok_doc] in
  cdp_send (PStr Demo.page_url) "Page.navigate" params w
  = (Ret Demo.navigate_ok_doc,
     with_ws 1 ∅
       (logged w (session 0 Demo.page_url
                    (json_dumps (command "Page.navigate" params)) texts))).
Proof.
  intros w params texts.
  apply (cdp_send_correlates Demo.page_url "Page.navigate" params w
           (map (Demo.dumps 8) [Demo.event_doc; Demo.other_reply_doc])
           (Demo.dumps 8 Demo.navigate_ok_doc) Demo.navigate_ok_doc
           [Frame (Demo.dumps 8 Demo.event_doc)]).
  - reflexivity.
  - reflexivity.
  - reflexivity.
  - repeat constructor.
    + exists Demo.event_doc, PNone. vm_compute. auto.
    + exists Demo.other_reply_doc, (PInt 7). vm_compute. auto.
  - exists (PInt 1). vm_compute. auto.
Defined.

(** A peer that sends an event and then nothing: [recv] times out and the
    connection is closed all the same. *)
Lemma cdp_send_closes_witness :
  let w := Demo.world ∅ Demo.http_up [Demo.peer_of [Demo.event_doc]] in
  let out := cdp_send (PStr Demo.page_url) "Page.navigate" PNone w in
  fst out = Raise WebSocketTimeoutException
  /\ ws_open (snd out) !! O = None
  /\ (((forall url, PStr Demo.page_url <> PStr url)
       /\ fst out = Raise TypeError /\ snd out = w)
      \/ (exists url e,
            PStr Demo.page_url = PStr url
            /\ peer_refuses (ws_oracle w (ws_count w) url) = Some e
            /\ fst out = Raise e
            /\ snd out
               = with_ws (S (ws_count w)) (ws_open w) (logged w [EWsConnect url]))
      \/ (exists url datas,
            PStr Demo.page_url = PStr url
            /\ snd out
               = with_ws (S (ws_count w)) (delete (ws_count w) (ws_open w))
                   (logged w (session (ws_count w) url
                                (json_dumps (command "Page.navigate" PNone))
                                datas)))).
Proof.
  intros w out. split; [vm_compute; reflexivity|].
  split; [vm_compute; reflexivity|].
  apply (cdp_send_closes (PStr Demo.page_url) "Page.navigate" PNone w).
  apply surjective_pairing.
Defined.

(** The world in which [status] discovers the extension: a running Chrome
    whose browser target lists the service worker of the extension. *)
Definition status_world : World :=
  Demo.world ∅ Demo.http_up [Demo.peer_of [Demo.get_targets_doc]].

(** A cached ID with white space around it, and a discovery. *)
Lemma ext_id_never_builtin_witness :
  let cached := Demo.world {[ EXT_ID_FILE := " abcdefghijklmnopabcdefghijklmnop
" ]} Demo.http_down [] in
  let found := "abcdefghijklmnopabcdefghijklmnop" in
  get_ext_id cached = (Ret (PStr found), cached)
  /\ fst (discover_ext_id status_world) = Ret (PStr found)
  /\ (PStr found = PNone
      \/ exists id, PStr found = PStr id /\ id ∉ BUILTIN_EXT_IDS)
  /\ (PStr found = PNone
      \/ exists id,
          PStr found = PStr id
          /\ (id ∉ BUILTIN_EXT_IDS)
          /\ files (snd (discover_ext_id status_world)) !! EXT_ID_FILE = Some id
          /\ last (trace (snd (discover_ext_id status_world)))
             = Some (EWrite EXT_ID_FILE id)).
Proof.
  intros cached found.
  assert (Hcached : get_ext_id cached = (Ret (PStr found), cached))
    by (vm_compute; reflexivity).
  assert (Hfound : discover_ext_id status_world
                   = (Ret (PStr found), snd (discover_ext_id status_world)))
    by (vm_compute; reflexivity).
  split; [exact Hcached|]. split; [by rewrite Hfound|]. split.
  - exact (proj1 ext_id_never_builtin cached (PStr found) cached Hcached).
  - exact (proj2 ext_id_never_builtin status_world (PStr found) _ Hfound).
Defined.

(** A bare host name gets [https://]; a URL with a scheme is kept. *)
Lemma cmd_open_normalises_witness :
  let w := Demo.world ∅ Demo.http_up [Demo.peer_of [Demo.navigate_ok_doc]] in
  normalize_url "https://example.com/a" = "https://example.com/a"
  /\ normalize_url "example.com" = "https://example.com"
  /\ exists r w' datas tail,
      cmd_open "example.com" w = (r, w')
      /\ trace w'
         = trace (snd (require_page (snd (require_running w))))
           ++ session (ws_count (snd (require_page (snd (require_running w)))))
                Demo.page_url
                (json_dumps
                   (command "Page.navigate"
                      (PDict [("url", PStr (normalize_url "example.com"))])))
                datas
           ++ tail.
Proof.
  intros w. split; [|split].
  - apply (proj1 (cmd_open_normalises "https://example.com/a")).
    exists "http", "s://example.com/a". split; [|reflexivity].
    unfold url_schemes. apply elem_of_cons. by left.
  - apply (proj1 (proj2 (cmd_open_normalises "example.com"))).
    intros (scheme & rest & Hin & E). unfold url_schemes in Hin.
    rewrite !elem_of_cons, elem_of_nil in Hin.
    destruct Hin as [->|[->|[->|[->|[]]]]];
      rewrite append_cons in E; discriminate E.
  - apply (proj2 (proj2 (cmd_open_normalises "example.com")) w
             (snd (require_running w)) Demo.page_url
             (snd (require_page (snd (require_running w))))).
    + vm_compute. reflexivity.
    + vm_compute. reflexivity.
    + reflexivity.
Defined.

(** A saved state on a machine without [taskkill], and no saved state. *)
Lemma cmd_stop_unlinks_witness :
  let saved := Demo.without_taskkill
                 (Demo.world {[ STATE_FILE := Demo.dumps 8 Demo.state_doc ]}
                    Demo.http_down []) in
  let fresh := Demo.world ∅ Demo.http_down [] in
  (exists w' evs,
     cmd_stop saved = (Ret tt, w')
     /\ w' = with_files (delete STATE_FILE (files saved))
               (logged saved (evs ++ [EUnlink STATE_FILE]))
     /\ files w' !! STATE_FILE = None)
  /\ cmd_stop fresh
     = (Ret tt, logged fresh [EPrint "No saved state. Nothing to stop."]).
Proof.
  intros saved fresh. split.
  - apply (proj1 (cmd_stop_unlinks saved) (Demo.dumps 8 Demo.state_doc)
             Demo.state_doc).
    + vm_compute. reflexivity.
    + vm_compute. reflexivity.
    + by exists 4242, 9333.
  - apply (proj2 (cmd_stop_unlinks fresh)). vm_compute. reflexivity.
Defined.

(** [status] leaves a file of the user alone. *)
Lemma main_writes_own_files_witness :
  let w := with_files {[ "/home/dev/notes.txt" := "remember" ]} status_world in
  files (snd (main ["browser.py"; "status"] w)) !! "/home/dev/notes.txt"
  = Some "remember".
Proof.
  intros w.
  rewrite (main_writes_own_files ["browser.py"; "status"] w
             (fst (main ["browser.py"; "status"] w))
             (snd (main ["browser.py"; "status"] w))).
  - vm_compute. reflexivity.
  - apply surjective_pairing.
  - vm_compute. intros E. discriminate E.
  - vm_compute. intros E. discriminate E.
  - intros [E _]. vm_compute in E. discriminate E.
Defined.

(** C1 as stated fails: [status] writes the extension-ID cache file, which
    is not the state file. *)
Lemma status_caches_extension_id :
  let w' := snd (main ["browser.py"; "status"] status_world) in
  files status_world !! EXT_ID_FILE = None
  /\ files w' !! EXT_ID_FILE = Some "abcdefghijklmnopabcdefghijklmnop"
  /\ EXT_ID_FILE <> STATE_FILE.
Proof.
  intros w'. split; [|split].
  - vm_compute. reflexivity.
  - vm_compute. reflexivity.
  - vm_compute. intros E. discriminate E.
Qed.






(** Chrome installed where [CHROME_BIN] says. *)
Lemma find_chrome_first_usable_witness :
  let w := Demo.world {[ "/usr/bin/chrome" := "" ]} Demo.http_down [] in
  find_chrome w = (Ret "/usr/bin/chrome", w)
  /\ find_chrome (Demo.world ∅ Demo.http_down [])
     = (Raise FileNotFoundError, Demo.world ∅ Demo.http_down [])
  /\ ("/usr/bin/chrome" <> "" /\ is_Some (files w !! "/usr/bin/chrome")).
Proof.
  intros w. split; [|split].
  - assert (Hne : CHROME_BIN <> "") by (intros E; discriminate E).
    assert (Hfile : is_Some (files w !! CHROME_BIN))
      by (exists ""; vm_compute; reflexivity).
    exact (proj1 (proj2 (find_chrome_first_usable w)) Hne Hfile).
  - apply (proj2 (proj2 (find_chrome_first_usable (Demo.world ∅ Demo.http_down [])))).
    intros path _. right. reflexivity.
  - destruct (proj1 (find_chrome_first_usable w) "/usr/bin/chrome" w)
      as (_ & Hne & Hfile & _); [vm_compute; reflexivity|].
    by split.
Defined.


(** A version document without the debugger URL. *)
Lemma get_browser_ws_of_version_witness :
  let w := Demo.world ∅ (fun _ _ => HttpBody (Demo.dumps 8 Demo.other_reply_doc)) [] in
  let w1 := requested w "/json/version" in
  get_browser_ws w = (Raise KeyError, w1)
  /\ cmd_js "1" w = (Raise KeyError, w1)
  /\ get_browser_ws (Demo.world ∅ Demo.http_up [])
     = (Ret (PStr Demo.browser_url),
        requested (Demo.world ∅ Demo.http_up []) "/json/version").
Proof.
  intros w w1.
  assert (Hhttp : cdp_http "/json/version" w = (Ret Demo.other_reply_doc, w1))
    by (vm_compute; reflexivity).
  destruct (proj2 (proj2 (get_browser_ws_of_version w w1 _ Hhttp))
              [("id", PInt 7); ("result", PDict [])] eq_refl)
    as [Hws Hcmds]; [discriminate | reflexivity |].
  split; [exact Hws|]. split; [apply Hcmds; constructor|].
  assert (Hup : cdp_http "/json/version" (Demo.world ∅ Demo.http_up [])
                = (Ret Demo.version_doc,
                   requested (Demo.world ∅ Demo.http_up []) "/json/version"))
    by (vm_compute; reflexivity).
  apply (proj1 (proj2 (get_browser_ws_of_version _ _ _ Hup))
           [("Browser", PStr "Chrome/120");
            ("webSocketDebuggerUrl", PStr Demo.browser_url)]);
    reflexivity.
Defined.

(** Saving pid 4242 and reading it back. *)
Lemma save_state_load_state_witness :
  exists w1,
    save_state 4242 (Demo.world ∅ Demo.http_down []) = (Ret tt, w1)
    /\ load_state w1 = (Ret (state_of 4242), w1)
    /\ py_get (state_of 4242) "pid" PNone = Ok (PInt 4242)
    /\ well_formed_state (state_of 4242).
Proof.
  apply (save_state_load_state 4242 (Demo.world ∅ Demo.http_down [])).
  vm_compute. reflexivity.
Defined.

(** Starting and stopping pid 4242. *)
Lemma save_state_then_cmd_stop_witness :
  let w := Demo.world ∅ Demo.http_down [] in
  exists w' line,
    (save_state 4242;; cmd_stop) w = (Ret tt, w')
    /\ trace w'
       = trace w
         ++ [ EMkdir STATE_DIR;
              EWrite STATE_FILE (json_dumps (state_of 4242));
              ERun ["taskkill"; "/pid"; str_of_Z 4242; "/f"; "/t"];
              EPrint line;
              EUnlink STATE_FILE ]
    /\ files w' !! STATE_FILE = None.
Proof.
  intros w. apply (save_state_then_cmd_stop 4242 w).
  - vm_compute. reflexivity.
  - lia.
Defined.

(** State files holding [null]-like text, garbage, and a list. *)
Lemma cmd_stop_edge_cases_witness :
  let garbled := Demo.world {[ STATE_FILE := "pid=4242" ]} Demo.http_down [] in
  let listed := Demo.world {[ STATE_FILE := Demo.dumps 8 Demo.workers_doc ]}
                  Demo.http_down [] in
  let other := Demo.world {[ STATE_FILE := Demo.dumps 8 Demo.event_doc ]}
                 Demo.http_down [] in
  cmd_stop garbled = (Raise JSONDecodeError, garbled)
  /\ cmd_stop listed = (Raise AttributeError, listed)
  /\ cmd_stop other
     = (Ret tt,
        with_files (delete STATE_FILE (files other))
          (logged other [EUnlink STATE_FILE])).
Proof.
  intros garbled listed other.
  assert (Hgarbled : files garbled !! STATE_FILE = Some "pid=4242")
    by (vm_compute; reflexivity).
  assert (Hlisted : files listed !! STATE_FILE
                    = Some (Demo.dumps 8 Demo.workers_doc))
    by (vm_compute; reflexivity).
  assert (Hother : files other !! STATE_FILE
                   = Some (Demo.dumps 8 Demo.event_doc))
    by (vm_compute; reflexivity).
  split; [|split].
  - apply (proj1 (proj2 (cmd_stop_edge_cases garbled "pid=4242" Hgarbled))).
    vm_compute. reflexivity.
  - apply (proj1 (proj2 (proj2 (cmd_stop_edge_cases listed _ Hlisted)))
             Demo.workers_doc).
    + vm_compute. reflexivity.
    + reflexivity.
    + intros kvs E. discriminate E.
  - apply (proj2 (proj2 (proj2 (cmd_stop_edge_cases other _ Hother)))
             [("method", PStr "Target.targetCreated"); ("params", PDict [])]).
    + vm_compute. reflexivity.
    + intros E. discriminate E.
    + reflexivity.
Defined.


(** Discovery against a browser that refuses every WebSocket
    connection. *)
Lemma discover_ext_id_never_raises_witness :
  let w := Demo.world ∅ Demo.http_up [] in
  exists v w',
    discover_ext_id w = (Ret v, w') /\ (v = PNone \/ exists id, v = PStr id).
Proof.
  intros w.
  apply (discover_ext_id_never_raises w (PStr Demo.browser_url)
           (requested w "/json/version")).
  vm_compute. reflexivity.
Defined.

(** The store's own extension first, then Reader View. *)
Lemma scan_targets_finds_first_witness :
  let w := Demo.world ∅ Demo.http_up [] in
  scan_targets
    [ PDict [("type", PStr "page"); ("url", PStr "about:blank")];
      PDict [("url", PStr (extension_url "ghbmnnjooekpmoecnnnilnnbdlolhkhi" "bg.js"))];
      PDict [("url", PStr (extension_url "abcdefghijklmnopabcdefghijklmnop" "bg.js"))];
      PInt 5 ] w
  = (Ret (Some "abcdefghijklmnopabcdefghijklmnop"),
     with_files (<[EXT_ID_FILE := "abcdefghijklmnopabcdefghijklmnop"]> (files w))
       (logged w [EMkdir STATE_DIR;
                  EWrite EXT_ID_FILE "abcdefghijklmnopabcdefghijklmnop"])).
Proof.
  intros w.
  apply (scan_targets_finds_first
           [ PDict [("type", PStr "page"); ("url", PStr "about:blank")];
             PDict [("url", PStr (extension_url "ghbmnnjooekpmoecnnnilnnbdlolhkhi" "bg.js"))] ]
           [PInt 5]
           [("url", PStr (extension_url "abcdefghijklmnopabcdefghijklmnop" "bg.js"))]
           "abcdefghijklmnopabcdefghijklmnop" "bg.js" w).
  - constructor; [|constructor; [|constructor]].
    + eexists _, "about:blank". split; [reflexivity|]. split; [reflexivity|].
      left. reflexivity.
    + eexists _, _. split; [reflexivity|]. split; [reflexivity|]. right.
      exists "ghbmnnjooekpmoecnnnilnnbdlolhkhi", "bg.js".
      split; [reflexivity|]. split; [reflexivity|].
      apply (bool_decide_unpack _). vm_compute. exact I.
  - reflexivity.
  - reflexivity.
  - apply (bool_decide_unpack _). vm_compute. exact I.
Defined.

(** A response, and a peer that stays silent. *)
Lemma cdp_send_returns_response_witness :
  let w := Demo.world ∅ Demo.http_up
             [Demo.peer_of [Demo.event_doc; Demo.navigate_ok_doc]] in
  let silent := Demo.world ∅ Demo.http_up [Demo.peer_of []] in
  (exists url datas text id,
     PStr Demo.page_url = PStr url
     /\ json_loads text = Ok Demo.navigate_ok_doc
     /\ py_get Demo.navigate_ok_doc "id" PNone = Ok id
     /\ py_eq_int id 1 = true /\ last datas = Some text
     /\ trace (snd (cdp_send (PStr Demo.page_url) "Page.reload" PNone w))
        = trace w
          ++ session (ws_count w) url (json_dumps (command "Page.reload" PNone))
               datas)
  /\ cdp_send (PStr Demo.page_url) "Page.reload" PNone silent
     = (Raise WebSocketTimeoutException,
        with_ws (S (ws_count silent)) (delete (ws_count silent) (ws_open silent))
          (logged silent
             (session (ws_count silent) Demo.page_url
                (json_dumps (command "Page.reload" PNone)) []))).
Proof.
  intros w silent. split.
  - apply (proj1 (cdp_send_returns_response (PStr Demo.page_url) "Page.reload"
                    PNone w)).
    vm_compute. reflexivity.
  - apply (proj2 (cdp_send_returns_response (PStr Demo.page_url) "Page.reload"
                    PNone silent) Demo.page_url);
      reflexivity.
Defined.

(** Arguments after [stop], and two arguments after [wait]. *)
Lemma main_drops_surplus_arguments_witness :
  main ["browser.py"; "stop"; "now"; "please"] = cmd_stop
  /\ main ["browser.py"; "wait"; "1"; "2"] = cmd_wait (Some "1")
  /\ main ["browser.py"; "screenshot"] = cmd_screenshot "screenshot.png".
Proof.
  split; [|split].
  - apply (proj1 (proj2 (proj2 (main_drops_surplus_arguments
                                  ["browser.py"; "stop"; "now"; "please"])))).
    reflexivity.
  - apply (proj2 (proj2 (proj2 (proj2 (proj2 (proj2 (proj2
             (main_drops_surplus_arguments ["browser.py"; "wait"; "1"; "2"])))))))).
    reflexivity.
  - apply (proj1 (proj2 (proj2 (proj2 (proj2 (proj2 (proj2
             (main_drops_surplus_arguments ["browser.py"; "screenshot"])))))))).
    reflexivity.
Defined.


(** A screenshot that decodes, and one that does not. *)
Lemma cmd_screenshot_writes_witness :
  let shot := Demo.world ∅ Demo.http_up [Demo.peer_of [Demo.screenshot_doc]] in
  let torn := Demo.world ∅ Demo.http_up [Demo.peer_of [Demo.torn_screenshot_doc]] in
  let after w :=
    snd (cdp_send (PStr Demo.page_url) "Page.captureScreenshot"
           (PDict [("format", PStr "png")])
           (snd (require_page (snd (require_running w))))) in
  let path := path_resolve "out/page.png" in
  cmd_screenshot "out/page.png" shot
  = (Ret tt,
     with_files (<[path := Demo.png_signature]> (files (after shot)))
       (logged (after shot)
          [ EMkdir (path_parent path);
            EWrite path Demo.png_signature;
            EPrint ("Screenshot saved: " +:+ path) ]))
  /\ cmd_screenshot "out/page.png" torn
     = (Raise ValueError, logged (after torn) [EMkdir (path_parent path)]).
Proof.
  intros shot torn after path.
  assert (Hrun : forall w, w = shot \/ w = torn ->
            require_running w = (Ret tt, snd (require_running w)))
    by (intros w [-> | ->]; vm_compute; reflexivity).
  assert (Hpage : forall w, w = shot \/ w = torn ->
            require_page (snd (require_running w))
            = (Ret (PStr Demo.page_url),
               snd (require_page (snd (require_running w)))))
    by (intros w [-> | ->]; vm_compute; reflexivity).
  assert (Hshot : cdp_send (PStr Demo.page_url) "Page.captureScreenshot"
                    (PDict [("format", PStr "png")])
                    (snd (require_page (snd (require_running shot))))
                  = (Ret Demo.screenshot_doc, after shot))
    by (vm_compute; reflexivity).
  assert (Htorn : cdp_send (PStr Demo.page_url) "Page.captureScreenshot"
                    (PDict [("format", PStr "png")])
                    (snd (require_page (snd (require_running torn))))
                  = (Ret Demo.torn_screenshot_doc, after torn))
    by (vm_compute; reflexivity).
  split.
  - apply (proj1 (cmd_screenshot_writes "out/page.png" shot _ _ _ _ _
                    (PDict [("data", PStr "iVBORw0KGgo=")]) "iVBORw0KGgo="
                    (Hrun shot (or_introl eq_refl))
                    (Hpage shot (or_introl eq_refl)) Hshot
                    eq_refl eq_refl ltac:(discriminate))).
    reflexivity.
  - apply (proj2 (cmd_screenshot_writes "out/page.png" torn _ _ _ _ _
                    (PDict [("data", PStr "abc")]) "abc"
                    (Hrun torn (or_intror eq_refl))
                    (Hpage torn (or_intror eq_refl)) Htorn
                    eq_refl eq_refl ltac:(discriminate))).
    reflexivity.
Defined.

(** Preferences that are not JSON, and preferences that are a number. *)
Lemma cmd_import_unguarded_witness :
  let installed text :=
    Demo.world {[ EXT_ID_FILE := "abcdefghijklmnopabcdefghijklmnop";
                  prefs_file := text ]} Demo.http_up [] in
  cmd_import (installed "{broken")
  = (Raise JSONDecodeError, requested (installed "{broken") "/json/version")
  /\ cmd_import (installed "5")
     = (Raise TypeError, requested (installed "5") "/json/version").
Proof.
  intros installed.
  assert (Hrun : forall text,
            require_running (installed text)
            = (Ret tt, requested (installed text) "/json/version"))
    by (intros text; vm_compute; reflexivity).
  assert (Hid : forall text,
            or_else get_ext_id discover_ext_id
              (requested (installed text) "/json/version")
            = (Ret (PStr "abcdefghijklmnopabcdefghijklmnop"),
               requested (installed text) "/json/version"))
    by (intros text; vm_compute; reflexivity).
  assert (Hfile : forall text,
            files (requested (installed text) "/json/version") !! prefs_file
            = Some text)
    by (intros text; vm_compute; reflexivity).
  split.
  - apply (proj1 (cmd_import_unguarded _ _ _ _ "{broken"
                    (Hrun _) (Hid _) eq_refl (Hfile _))).
    vm_compute. reflexivity.
  - apply (proj2 (cmd_import_unguarded _ _ _ _ "5"
                    (Hrun _) (Hid _) eq_refl (Hfile _)) (PInt 5)).
    + vm_compute. reflexivity.
    + reflexivity.
Defined.

(** The targets of the running Chrome: a service worker and a page. *)
Lemma first_listed_page_is_active_witness :
  filter_pages Demo.targets = Ok (List.filter is_page_target Demo.targets)
  /\ first_page Demo.targets = Ok (PStr Demo.page_url).
Proof.
  assert (Hdicts : Forall is_dict Demo.targets)
    by (repeat constructor; eexists; reflexivity).
  destruct (first_listed_page_is_active Demo.targets Hdicts) as [Hall Hfirst].
  split; [exact Hall | exact Hfirst].
Defined.




(** The store answers with a navigation error; setup does not mind. *)
Lemma cmd_setup_ignores_response_witness :
  let w := Demo.world ∅ Demo.http_up [Demo.peer_of [Demo.navigate_error_doc]] in
  let w3 :=
    snd (cdp_send (PStr Demo.page_url) "Page.navigate"
           (PDict [("url", PStr CWS_URL)])
           (snd (require_page (snd (require_running w))))) in
  cmd_setup w
  = (Ret tt,
     logged w3
       [ EPrint "Opened Chrome Web Store: Reader View";
         EPrint "Click 'Add to Chrome' to install, then run: python browser.py status" ]).
Proof.
  intros w w3.
  assert (Hrunning : require_running w = (Ret tt, snd (require_running w)))
    by (vm_compute; reflexivity).
  assert (Hpage : require_page (snd (require_running w))
                  = (Ret (PStr Demo.page_url),
                     snd (require_page (snd (require_running w)))))
    by (vm_compute; reflexivity).
  assert (Hsend : cdp_send (PStr Demo.page_url) "Page.navigate"
                    (PDict [("url", PStr ("https://chromewebstore.google.com/detail/reader-view/"
                                          +:+ CWS_EXT_ID))])
                    (snd (require_page (snd (require_running w))))
                  = (Ret Demo.navigate_error_doc, w3))
    by (vm_compute; reflexivity).
  exact (cmd_setup_ignores_response w _ _ _ _ _ Hrunning Hpage Hsend).
Defined.
